(** * AI Shorts Studio: the project store of both API variants

    The repository holds two implementations of one HTTP surface:
    - [Studio]  embeds [src/main.py] with [src/schemas.py]
      (UUID project ids, timed script segments, per-fandom GIF pools);
    - [Backend] embeds [src/backend/main.py] with [src/backend/schemas.py]
      (counter project ids, untimed segments, the 400 check on voice-over).

    Each route handler is a function from the four in-memory tables to an
    outcome and the tables afterwards, so that "fails before mutating" and
    "read only" are statements about the second component.

    A Python [str] is a [string] whose characters are read as the code
    points below 256.  The floats [ScriptSegment.start] and [.end] are always
    [float(t)] of a small integer [t]; they are carried as that integer. *)

From Stdlib Require Import ZArith Lia Permutation Ascii.
From stdpp Require Import gmap strings list fin_maps pretty.

Local Open Scope Z_scope.

(** ** Python string methods used by the handlers *)

Module PyStr.

(** [str.isspace] on one character (CPython's [_PyUnicode_IsWhitespace]
    below U+0100). *)
Definition isspace (c : ascii) : bool :=
  match c with
  | "009" | "010" | "011" | "012" | "013"
  | "028" | "029" | "030" | "031" | " " | "133" | "160" => true
  | _ => false
  end%char.

(** Line boundaries of [str.splitlines] ([_PyUnicode_IsLinebreak] below
    U+0100). *)
Definition islinebreak (c : ascii) : bool :=
  match c with
  | "010" | "011" | "012" | "013" | "028" | "029" | "030" | "133" => true
  | _ => false
  end%char.

Fixpoint lstrip (s : string) : string :=
  match s with
  | "" => ""
  | String c s' => if isspace c then lstrip s' else s
  end.

Definition rstrip (s : string) : string :=
  String.rev (lstrip (String.rev s)).

(** [s.strip()] *)
Definition strip (s : string) : string := rstrip (lstrip s).

(** Truth value of a string: non-empty. *)
Definition truthy (s : string) : bool :=
  match s with "" => false | _ => true end.

(** [s.splitlines()]: [line] is the text since the last boundary, newest
    character first; a CR LF pair is one boundary; no final empty line. *)
Fixpoint splitlines_go (line : string) (s : string) : list string :=
  match s with
  | "" => if truthy line then [String.rev line] else []
  | String c s' =>
      if islinebreak c then
        String.rev line ::
          match c, s' with
          | "013"%char, String "010"%char s'' => splitlines_go "" s''
          | _, _ => splitlines_go "" s'
          end
      else splitlines_go (String c line) s'
  end.

Definition splitlines (s : string) : list string := splitlines_go "" s.

(** [s.replace(a, b)] for one-character [a] and [b]. *)
Fixpoint replace (a b : ascii) (s : string) : string :=
  match s with
  | "" => ""
  | String c s' => String (if decide (c = a) then b else c) (replace a b s')
  end.

(** [s.split(sep)] for a one-character separator: always at least one
    piece. *)
Fixpoint split_go (sep : ascii) (cur : string) (s : string) : list string :=
  match s with
  | "" => [String.rev cur]
  | String c s' =>
      if decide (c = sep) then String.rev cur :: split_go sep "" s'
      else split_go sep (String c cur) s'
  end.

Definition split (sep : ascii) (s : string) : list string := split_go sep "" s.

(** [sep.join(parts)] *)
Fixpoint join (sep : string) (parts : list string) : string :=
  match parts with
  | [] => ""
  | [p] => p
  | p :: rest => p +:+ sep +:+ join sep rest
  end.

Definition LF : ascii := "010"%char.
Definition CR : ascii := "013"%char.
Definition NL : string := String LF "".

(** Every character is whitespace. *)
Fixpoint all_space (s : string) : bool :=
  match s with
  | "" => true
  | String c s' => isspace c && all_space s'
  end.

End PyStr.

(** ** Outcome of a route handler *)

Inductive outcome (A : Type) : Type :=
  | Returned (a : A)                              (* the handler returned *)
  | HTTPException (status : Z) (detail : string)  (* raise HTTPException *)
  | Uncaught (exn : string).                      (* any other exception: a 500 *)
Arguments Returned {A} a.
Arguments HTTPException {A} status detail.
Arguments Uncaught {A} exn.

(** A handler reads and writes the module-level tables [St]. *)
Definition handler (St A : Type) : Type := St -> outcome A * St.

Global Instance handler_ret {St} : MRet (handler St) :=
  fun A a st => (Returned a, st).

Global Instance handler_bind {St} : MBind (handler St) :=
  fun A B k m st =>
    match m st with
    | (Returned a, st') => k a st'
    | (HTTPException c d, st') => (HTTPException c d, st')
    | (Uncaught e, st') => (Uncaught e, st')
    end.

(** [raise HTTPException(status, detail)] *)
Definition raise {St A} (status : Z) (detail : string) : handler St A :=
  fun st => (HTTPException status detail, st).

(** An exception that is not an [HTTPException]. *)
Definition throw {St A} (exn : string) : handler St A :=
  fun st => (Uncaught exn, st).

(** Read the tables; change the tables. *)
Definition gets {St A} (f : St -> A) : handler St A :=
  fun st => (Returned (f st), st).

Definition modify {St} (f : St -> St) : handler St unit :=
  fun st => (Returned tt, f st).

(** [if cond: raise HTTPException(status, detail)] *)
Definition raise_if {St} (cond : bool) (status : Z) (detail : string) : handler St unit :=
  if cond then raise status detail else mret tt.

(** ** Dictionary operations *)

(** [d.setdefault(k, v)]: the table afterwards. *)
Definition setdefault {V} (k : string) (v : V) (d : gmap string V) : gmap string V :=
  match d !! k with
  | Some _ => d
  | None => <[k := v]> d
  end.

(** [d.get(k, v)] *)
Definition get_or {V} (k : string) (v : V) (d : gmap string V) : V :=
  default v (d !! k).

(** [k in d] *)
Definition contains {V} (k : string) (d : gmap string V) : bool :=
  bool_decide (is_Some (d !! k)).

(** ** [random.sample] on a small population

    CPython's pool branch (taken when the population has at most 21
    elements, as every pool here has): the [i]-th pick is [pool[j]] for
    [j = randbelow(n - i)], and the last unpicked element moves into the
    vacancy.  [draws] are the successive values of [randbelow], taken from
    the environment and reduced below [n - i]; a missing draw counts as 0. *)
Fixpoint sample_go {A} (draws : list nat) (pool : list A) (k : nat) : list A :=
  match k with
  | O => []
  | S k' =>
      let m := length pool in
      let j := (hd 0%nat draws mod m)%nat in
      match pool !! j, pool !! (m - 1)%nat with
      | Some x, Some y => x :: sample_go (tl draws) (take (m - 1) (<[j := y]> pool)) k'
      | _, _ => []
      end
  end.

Definition sample {A} (draws : list nat) (population : list A) (k : nat) : list A :=
  sample_go draws population k.

(** ** [src/schemas.py] and [src/main.py] *)

Module Studio.

(** *** Schemas *)

(** [Mode = Literal["auto", "step"]] *)
Inductive Mode := ModeAuto | ModeStep.

(** [Fandom = Literal["harry_potter", "game_of_thrones", "generic"]] *)
Inductive Fandom := HarryPotter | GameOfThrones | Generic.

(** [AssetKind = Literal["image", "voice", "music", "clip"]] *)
Inductive AssetKind := KindImage | KindVoice | KindMusic | KindClip.

(** Validation of a [str] against the literal types; [None] is pydantic's
    [ValidationError]. *)
Definition Mode_validate (s : string) : option Mode :=
  if decide (s = "auto") then Some ModeAuto
  else if decide (s = "step") then Some ModeStep
  else None.

Definition Fandom_validate (s : string) : option Fandom :=
  if decide (s = "harry_potter") then Some HarryPotter
  else if decide (s = "game_of_thrones") then Some GameOfThrones
  else if decide (s = "generic") then Some Generic
  else None.

Module Project.
Record t := make {
  title : string;
  topic : string;
  mode : Mode;
  fandom : Fandom;
  use_ai_images : bool;
  use_stock_media : bool;
  use_ai_voice : bool;
  brand_primary : string;
  brand_secondary : string;
  fps : Z;
  max_seconds : Z;
}.

(** [Project(title=.., topic=.., mode=.., fandom=..)]: the other fields
    take the class defaults. *)
Definition new (title topic mode fandom : string) : option t :=
  m ← Mode_validate mode;
  f ← Fandom_validate fandom;
  Some {| title := title; topic := topic; mode := m; fandom := f;
          use_ai_images := true; use_stock_media := false;
          use_ai_voice := true;
          brand_primary := "#FACC15"; brand_secondary := "#18181B";
          fps := 30; max_seconds := 60 |}.
End Project.

Module ScriptSegment.
Record t := make { start : Z; end_ : Z; text : string }.
End ScriptSegment.

Module Script.
Record t := make {
  project_id : string;
  text : string;
  segments : list ScriptSegment.t;
}.
End Script.

Module MediaAsset.
Record t := make {
  project_id : string;
  kind : AssetKind;
  url : string;
  meta : gmap string string;
}.
End MediaAsset.

Inductive RenderStatus := Queued | Processing | Done | Error.

Module RenderJob.
Record t := make {
  project_id : string;
  status : RenderStatus;
  output_url : option string;
  error : option string;
}.
End RenderJob.

(** *** The in-memory stores *)

Record Tables := {
  PROJECTS : gmap string Project.t;
  SCRIPTS : gmap string Script.t;
  ASSETS : gmap string (list MediaAsset.t);
  RENDERS : gmap string RenderJob.t;
}.

Definition empty_tables : Tables :=
  {| PROJECTS := ∅; SCRIPTS := ∅; ASSETS := ∅; RENDERS := ∅ |}.

Definition on_PROJECTS (f : gmap string Project.t -> gmap string Project.t)
    (st : Tables) : Tables :=
  {| PROJECTS := f (PROJECTS st); SCRIPTS := SCRIPTS st;
     ASSETS := ASSETS st; RENDERS := RENDERS st |}.

Definition on_SCRIPTS (f : gmap string Script.t -> gmap string Script.t)
    (st : Tables) : Tables :=
  {| PROJECTS := PROJECTS st; SCRIPTS := f (SCRIPTS st);
     ASSETS := ASSETS st; RENDERS := RENDERS st |}.

Definition on_ASSETS
    (f : gmap string (list MediaAsset.t) -> gmap string (list MediaAsset.t))
    (st : Tables) : Tables :=
  {| PROJECTS := PROJECTS st; SCRIPTS := SCRIPTS st;
     ASSETS := f (ASSETS st); RENDERS := RENDERS st |}.

(** *** Request models; a field with a default is filled when omitted *)

Module CreateProjectReq.
Record t := make { title : string; topic : string; mode : string; fandom : string }.

(** The body as sent: [mode] and [fandom] may be left out. *)
Definition parse (title topic : string) (mode fandom : option string) : t :=
  {| title := title; topic := topic;
     mode := default "auto" mode; fandom := default "generic" fandom |}.
End CreateProjectReq.

Module ScriptGenerateReq.
Record t := make { project_id : string; topic : string }.
End ScriptGenerateReq.

Module ScriptProvideReq.
Record t := make { project_id : string; text : string }.
End ScriptProvideReq.

Module AIImagesReq.
Record t := make { project_id : string; fandom : string }.

Definition parse (project_id : string) (fandom : option string) : t :=
  {| project_id := project_id; fandom := default "generic" fandom |}.
End AIImagesReq.

Module VoiceReq.
Record t := make { project_id : string }.
End VoiceReq.

(** What [GET /project/{project_id}] returns. *)
Module ProjectView.
Record t := make {
  project : Project.t;
  script : option Script.t;
  assets : list MediaAsset.t;
  render : option RenderJob.t;
}.
End ProjectView.

(** *** Handlers *)

Definition not_found {A} : handler Tables A := raise 404 "Project not found".

(** [POST /project]; [uuid4] is the value of [str(uuid.uuid4())]. *)
Definition create_project (uuid4 : string) (req : CreateProjectReq.t)
    : handler Tables string :=
  let pid := uuid4 in
  match Project.new (CreateProjectReq.title req) (CreateProjectReq.topic req)
                    (CreateProjectReq.mode req) (CreateProjectReq.fandom req) with
  | None => throw "ValidationError"
  | Some project =>
      modify (on_PROJECTS <[pid := project]>);;
      mret pid
  end.

(** [GET /project/{project_id}].  A model instance is always true, so
    [not project] holds exactly when the lookup gave [None]. *)
Definition get_project (project_id : string) : handler Tables ProjectView.t :=
  project ← gets (fun st => PROJECTS st !! project_id);
  match project with
  | None => not_found
  | Some project =>
      script ← gets (fun st => SCRIPTS st !! project_id);
      assets ← gets (fun st => get_or project_id [] (ASSETS st));
      render ← gets (fun st => RENDERS st !! project_id);
      mret {| ProjectView.project := project; ProjectView.script := script;
              ProjectView.assets := assets; ProjectView.render := render |}
  end.

Definition bullets : list string :=
  [ "Hook: a jaw-dropping reveal in 5 seconds";
    "Point 1: surprising lore detail";
    "Point 2: fan theory twist";
    "Point 3: what most fans miss";
    "CTA: follow for more in-universe secrets" ].

Definition generated_segments : list ScriptSegment.t :=
  [ ScriptSegment.make 0 5 "Hook";
    ScriptSegment.make 5 20 "Point 1";
    ScriptSegment.make 20 35 "Point 2";
    ScriptSegment.make 35 50 "Point 3";
    ScriptSegment.make 50 58 "CTA" ].

(** The [Script] built by [generate_script]. *)
Definition generated_script (req : ScriptGenerateReq.t) : Script.t :=
  let text := "Topic: " +:+ ScriptGenerateReq.topic req +:+ PyStr.NL
              +:+ PyStr.join PyStr.NL (map (fun b => "- " +:+ b) bullets) in
  Script.make (ScriptGenerateReq.project_id req) text generated_segments.

(** [POST /script/generate] *)
Definition generate_script (req : ScriptGenerateReq.t) : handler Tables bool :=
  let pid := ScriptGenerateReq.project_id req in
  known ← gets (fun st => contains pid (PROJECTS st));
  raise_if (negb known) 404 "Project not found";;
  let script := generated_script req in
  modify (on_SCRIPTS <[pid := script]>);;
  mret true.

(** The loop of [provide_script]: [t] is the running start time. *)
Fixpoint segment_lines (dur per t : Z) (lines : list string) : list ScriptSegment.t :=
  match lines with
  | [] => []
  | l :: rest =>
      ScriptSegment.make t (Z.min dur (t + per)) l
        :: segment_lines dur per (t + per) rest
  end.

(** [[l.strip() for l in text.splitlines() if l.strip()]] *)
Definition script_lines (text : string) : list string :=
  map PyStr.strip
    (List.filter (fun l => PyStr.truthy (PyStr.strip l)) (PyStr.splitlines text)).

Definition dur : Z := 55.

Definition per_line (lines : list string) : Z :=
  Z.max 1 (dur / Z.max 1 (Z.of_nat (length lines))).

(** The [Script] built by [provide_script]. *)
Definition provided_script (req : ScriptProvideReq.t) : Script.t :=
  let lines := script_lines (ScriptProvideReq.text req) in
  let per := per_line lines in
  let segs := segment_lines dur per 0 lines in
  Script.make (ScriptProvideReq.project_id req) (ScriptProvideReq.text req) segs.

(** [POST /script/provide] *)
Definition provide_script (req : ScriptProvideReq.t) : handler Tables bool :=
  let pid := ScriptProvideReq.project_id req in
  known ← gets (fun st => contains pid (PROJECTS st));
  raise_if (negb known) 404 "Project not found";;
  let script := provided_script req in
  modify (on_SCRIPTS <[pid := script]>);;
  mret true.

Definition HP_GIFS : list string :=
  [ "https://media.tenor.com/1.gif";
    "https://media.tenor.com/2.gif";
    "https://media.tenor.com/3.gif" ].

Definition GOT_GIFS : list string :=
  [ "https://media.tenor.com/a.gif";
    "https://media.tenor.com/b.gif";
    "https://media.tenor.com/c.gif" ].

Definition GENERIC_GIFS : list string :=
  [ "https://media.tenor.com/x.gif";
    "https://media.tenor.com/y.gif";
    "https://media.tenor.com/z.gif" ].

(** The [if]/[elif]/[else] of [ai_images]: the pool and the prompts. *)
Definition resolve_fandom (fandom : string) : list string * list string :=
  if decide (fandom = "harry_potter") then
    (HP_GIFS, ["wand sparks"; "hogwarts castle night"; "patronus mist"])
  else if decide (fandom = "game_of_thrones") then
    (GOT_GIFS, ["dragon flight"; "winterfell snow drift"; "sword sparks"])
  else
    (GENERIC_GIFS, ["magic particles"; "fantasy landscape"; "mystic smoke"]).

Definition image_asset (pid fandom : string) (up : string * string) : MediaAsset.t :=
  MediaAsset.make pid KindImage up.1
    (<["prompt" := up.2]> (<["fandom" := fandom]> ∅)).

(** The list that [ai_images] appends; [draws] feed [random.sample]. *)
Definition picked_assets (draws : list nat) (pid fandom : string) : list MediaAsset.t :=
  let '(pool, prompts) := resolve_fandom fandom in
  let picked := sample draws pool (Nat.min 3 (length pool)) in
  map (image_asset pid fandom) (zip picked prompts).

(** [ASSETS[pid].extend(more)]; a missing key is a [KeyError]. *)
Definition extend_assets (pid : string) (more : list MediaAsset.t) : handler Tables unit :=
  cur ← gets (fun st => ASSETS st !! pid);
  match cur with
  | None => throw "KeyError"
  | Some l => modify (on_ASSETS <[pid := l ++ more]>)
  end.

(** The tables once [more] has been appended to the list of [pid]
    (created empty when missing). *)
Definition appended (pid : string) (more : list MediaAsset.t) (st : Tables) : Tables :=
  on_ASSETS <[pid := get_or pid [] (ASSETS st) ++ more]> st.

(** [POST /assets/ai-images]; returns [count]. *)
Definition ai_images (draws : list nat) (req : AIImagesReq.t) : handler Tables nat :=
  let pid := AIImagesReq.project_id req in
  known ← gets (fun st => contains pid (PROJECTS st));
  raise_if (negb known) 404 "Project not found";;
  let assets := picked_assets draws pid (AIImagesReq.fandom req) in
  modify (on_ASSETS (setdefault pid []));;
  extend_assets pid assets;;
  mret (length assets).

Definition tts_url : string :=
  "https://cdn.pixabay.com/download/audio/2022/02/23/audio_6b3c.mp3?filename=neutral-female-voiceover-sample.mp3".

Definition voice_asset (pid : string) : MediaAsset.t :=
  MediaAsset.make pid KindVoice tts_url
    (<["voice" := "female_neutral"]> (<["lang" := "en-US"]> ∅)).

(** [POST /assets/voice] *)
Definition voice (req : VoiceReq.t) : handler Tables bool :=
  let pid := VoiceReq.project_id req in
  known ← gets (fun st => contains pid (PROJECTS st));
  raise_if (negb known) 404 "Project not found";;
  modify (on_ASSETS (setdefault pid []));;
  extend_assets pid [voice_asset pid];;
  mret true.

(** [GET /health] *)
Definition health : handler Tables bool := mret true.

(** *** Requests reaching the process, with what the environment draws *)

Inductive request :=
  | Health
  | CreateProject (uuid4 : string) (req : CreateProjectReq.t)
  | GetProject (project_id : string)
  | GenerateScript (req : ScriptGenerateReq.t)
  | ProvideScript (req : ScriptProvideReq.t)
  | AIImages (draws : list nat) (req : AIImagesReq.t)
  | Voice (req : VoiceReq.t).

(** The tables after one request. *)
Definition exec (r : request) (st : Tables) : Tables :=
  match r with
  | Health => (health st).2
  | CreateProject u req => (create_project u req st).2
  | GetProject pid => (get_project pid st).2
  | GenerateScript req => (generate_script req st).2
  | ProvideScript req => (provide_script req st).2
  | AIImages draws req => (ai_images draws req st).2
  | Voice req => (voice req st).2
  end.

(** The project id a request hands out, if any. *)
Definition issued_by (r : request) (st : Tables) : option string :=
  match r with
  | CreateProject u req =>
      match (create_project u req st).1 with
      | Returned pid => Some pid
      | _ => None
      end
  | _ => None
  end.

(** The tables after a sequence of requests, and the ids handed out. *)
Fixpoint run (rs : list request) (st : Tables) : Tables :=
  match rs with
  | [] => st
  | r :: rs' => run rs' (exec r st)
  end.

Fixpoint issued (rs : list request) (st : Tables) : list string :=
  match rs with
  | [] => []
  | r :: rs' => option_list (issued_by r st) ++ issued rs' (exec r st)
  end.

(** The values [uuid4] took along a sequence of requests. *)
Fixpoint uuids (rs : list request) : list string :=
  match rs with
  | [] => []
  | CreateProject u _ :: rs' => u :: uuids rs'
  | _ :: rs' => uuids rs'
  end.

(** The states the process can be in. *)
Definition reachable (st : Tables) : Prop := exists rs, st = run rs empty_tables.

End Studio.

(** ** [src/backend/schemas.py] and [src/backend/main.py] *)

Module Backend.

(** *** Schemas *)

Module Project.
Record t := make {
  title : string;
  topic : string;
  mode : string;
  status : string;
  use_ai_script : bool;
  use_ai_voice : bool;
  use_stock_media : bool;
  use_ai_images : bool;
  brand_name : option string;
  color_primary : option string;
  color_secondary : option string;
  fps : Z;
  max_seconds : Z;
}.

(** [Project(title=.., topic=.., mode=.., brand_name=.., use_ai_images=True)] *)
Definition new (title topic mode : string) (brand_name : option string) : t :=
  {| title := title; topic := topic; mode := mode; status := "draft";
     use_ai_script := true; use_ai_voice := true;
     use_stock_media := true; use_ai_images := true;
     brand_name := brand_name;
     color_primary := Some "#FFD54A"; color_secondary := Some "#FFFFFF";
     fps := 30; max_seconds := 60 |}.
End Project.

Module Script.
Record t := make {
  project_id : string;
  text : string;
  segments : list string;
}.
End Script.

Module MediaAsset.
Record t := make {
  project_id : string;
  kind : string;
  url : string;
  attribution : option string;
  meta : option (gmap string string);
}.
End MediaAsset.

Module RenderJob.
Record t := make {
  project_id : string;
  status : string;
  output_url : option string;
  error : option string;
}.
End RenderJob.

(** *** The in-memory stores *)

Record Tables := {
  PROJECTS : gmap string Project.t;
  SCRIPTS : gmap string Script.t;
  ASSETS : gmap string (list MediaAsset.t);
  RENDERS : gmap string RenderJob.t;
}.

Definition empty_tables : Tables :=
  {| PROJECTS := ∅; SCRIPTS := ∅; ASSETS := ∅; RENDERS := ∅ |}.

Definition on_PROJECTS (f : gmap string Project.t -> gmap string Project.t)
    (st : Tables) : Tables :=
  {| PROJECTS := f (PROJECTS st); SCRIPTS := SCRIPTS st;
     ASSETS := ASSETS st; RENDERS := RENDERS st |}.

Definition on_SCRIPTS (f : gmap string Script.t -> gmap string Script.t)
    (st : Tables) : Tables :=
  {| PROJECTS := PROJECTS st; SCRIPTS := f (SCRIPTS st);
     ASSETS := ASSETS st; RENDERS := RENDERS st |}.

Definition on_ASSETS
    (f : gmap string (list MediaAsset.t) -> gmap string (list MediaAsset.t))
    (st : Tables) : Tables :=
  {| PROJECTS := PROJECTS st; SCRIPTS := SCRIPTS st;
     ASSETS := f (ASSETS st); RENDERS := RENDERS st |}.

(** *** Request bodies; an omitted optional field is its default *)

Module CreateProjectBody.
Record t := make {
  title : string;
  topic : string;
  mode : string;
  brand_name : option string;
  fandom : option string;
}.
End CreateProjectBody.

Module GenerateScriptBody.
Record t := make { project_id : string; topic : option string }.
End GenerateScriptBody.

Module ProvideScriptBody.
Record t := make { project_id : string; text : string }.
End ProvideScriptBody.

Module GenerateAIImagesBody.
Record t := make {
  project_id : string;
  prompts : option (list string);
  fandom : option string;
}.
End GenerateAIImagesBody.

Module TTSBody.
Record t := make { project_id : string; voice : option string }.

(** [voice] left out is ["female_neutral"]. *)
Definition parse (project_id : string) (voice : option string) : t :=
  {| project_id := project_id;
     voice := Some (default "female_neutral" voice) |}.
End TTSBody.

Module ProjectView.
Record t := make {
  project : Project.t;
  script : option Script.t;
  assets : list MediaAsset.t;
  render : option RenderJob.t;
}.
End ProjectView.

(** *** Handlers *)

(** [x or y] on an optional string: [None] and [""] are false. *)
Definition str_or (x : option string) (y : string) : string :=
  match x with
  | Some s => if PyStr.truthy s then s else y
  | None => y
  end.

(** [x or y] on an optional list: [None] and [[]] are false. *)
Definition list_or {A} (x : option (list A)) (y : list A) : list A :=
  match x with
  | Some (a :: l) => a :: l
  | _ => y
  end.

(** [f"proj_{len(PROJECTS)+1}"] *)
Definition next_pid (projects : gmap string Project.t) : string :=
  "proj_" +:+ pretty (size projects + 1)%nat.

(** [POST /project] *)
Definition create_project (body : CreateProjectBody.t)
    : handler Tables (string * Project.t) :=
  pid ← gets (fun st => next_pid (PROJECTS st));
  let project := Project.new (CreateProjectBody.title body)
                   (CreateProjectBody.topic body) (CreateProjectBody.mode body)
                   (CreateProjectBody.brand_name body) in
  modify (on_PROJECTS <[pid := project]>);;
  mret (pid, project).

(** The five lines of a generated script. *)
Definition script_segments (topic : string) : list string :=
  let hook := "What if I told you " +:+ topic +:+ " hides a secret you missed?" in
  let bullets :=
    [ "Hidden detail #1 about " +:+ topic;
      "Hidden detail #2 that changes everything";
      "A fan theory that actually makes sense" ] in
  let cta := "Follow for more bite-sized lore!" in
  [hook] ++ bullets ++ [cta].

(** The [Script] built by [generate_script] for a topic. *)
Definition generated_script (pid topic : string) : Script.t :=
  let segments := script_segments topic in
  let text := PyStr.join PyStr.NL segments in
  Script.make pid text segments.

(** [body.topic or PROJECTS[body.project_id].topic]: the table is read
    only when [body.topic] is false. *)
Definition topic_or_stored (body : GenerateScriptBody.t) : handler Tables string :=
  match GenerateScriptBody.topic body with
  | Some s =>
      if PyStr.truthy s then mret s
      else
        project ← gets (fun st => PROJECTS st !! GenerateScriptBody.project_id body);
        match project with
        | Some project => mret (Project.topic project)
        | None => throw "KeyError"
        end
  | None =>
      project ← gets (fun st => PROJECTS st !! GenerateScriptBody.project_id body);
      match project with
      | Some project => mret (Project.topic project)
      | None => throw "KeyError"
      end
  end.

(** [POST /script/generate] *)
Definition generate_script (body : GenerateScriptBody.t) : handler Tables Script.t :=
  let pid := GenerateScriptBody.project_id body in
  known ← gets (fun st => contains pid (PROJECTS st));
  raise_if (negb known) 404 "Project not found";;
  topic ← topic_or_stored body;
  let script := generated_script pid topic in
  modify (on_SCRIPTS <[pid := script]>);;
  mret script.

(** [[s.strip() for s in text.replace("\r","\n").split("\n") if s.strip()]] *)
Definition stripped_pieces (text : string) : list string :=
  map PyStr.strip
    (List.filter (fun s => PyStr.truthy (PyStr.strip s))
       (PyStr.split PyStr.LF (PyStr.replace PyStr.CR PyStr.LF text))).

(** The segments stored for a provided text. *)
Definition provided_segments (text : string) : list string :=
  match stripped_pieces text with
  | [] => [text]
  | segs => segs
  end.

(** [POST /script/provide] *)
Definition provide_script (body : ProvideScriptBody.t) : handler Tables Script.t :=
  let pid := ProvideScriptBody.project_id body in
  known ← gets (fun st => contains pid (PROJECTS st));
  raise_if (negb known) 404 "Project not found";;
  let text := ProvideScriptBody.text body in
  let script := Script.make pid text (provided_segments text) in
  modify (on_SCRIPTS <[pid := script]>);;
  mret script.

Definition sample_gifs : list string :=
  [ "https://media.tenor.com/9v0Yw6Z0v2cAAAAC/magic-loop.gif";
    "https://media.tenor.com/tk2b8h7VJ24AAAAC/fantasy-landscape.gif";
    "https://media.tenor.com/7xgq6sVJ0bUAAAAC/smoke-magic.gif" ].

Definition default_prompts (fandom : string) : list string :=
  [ "cinematic portrait, " +:+ fandom +:+ " style, magical particles, ultra detail, 9:16";
    "dynamic action shot, " +:+ fandom +:+ " vibes, volumetric light, 9:16";
    "mystical landscape, " +:+ fandom +:+ " world, fog, depth, 9:16" ].

Definition image_asset (pid : string) (up : string * string) : MediaAsset.t :=
  MediaAsset.make pid "image" up.1 None (Some (<["prompt" := up.2]> ∅)).

(** The list that [generate_ai_images] appends and returns. *)
Definition image_assets (body : GenerateAIImagesBody.t) : list MediaAsset.t :=
  let fandom := str_or (GenerateAIImagesBody.fandom body) "generic" in
  let prompts := list_or (GenerateAIImagesBody.prompts body) (default_prompts fandom) in
  map (image_asset (GenerateAIImagesBody.project_id body)) (zip sample_gifs prompts).

(** [ASSETS.setdefault(pid, []).extend(more)] (or [.append]): the list
    that [setdefault] returns is the one stored under [pid], and it grows in
    place. *)
Definition setdefault_extend (pid : string) (more : list MediaAsset.t)
    : handler Tables unit :=
  modify (on_ASSETS (setdefault pid []));;
  l ← gets (fun st => get_or pid [] (ASSETS st));
  modify (on_ASSETS <[pid := l ++ more]>).

(** The tables once [more] has been appended to the list of [pid]
    (created empty when missing). *)
Definition appended (pid : string) (more : list MediaAsset.t) (st : Tables) : Tables :=
  on_ASSETS <[pid := get_or pid [] (ASSETS st) ++ more]> st.

(** [POST /assets/ai-images] *)
Definition generate_ai_images (body : GenerateAIImagesBody.t)
    : handler Tables (list MediaAsset.t) :=
  let pid := GenerateAIImagesBody.project_id body in
  known ← gets (fun st => contains pid (PROJECTS st));
  raise_if (negb known) 404 "Project not found";;
  let assets := image_assets body in
  setdefault_extend pid assets;;
  mret assets.

Definition voice_url : string :=
  "https://files.freemusicarchive.org/storage-freemusicarchive-org/music/no_curator/Scott_Holmes_Music/Happy_Music/Scott_Holmes_Music_-_05_-_Upbeat_Party.mp3".

Definition voice_asset (pid : string) : MediaAsset.t :=
  MediaAsset.make pid "voice" voice_url None None.

(** [POST /assets/voice] *)
Definition generate_voiceover (body : TTSBody.t) : handler Tables MediaAsset.t :=
  let pid := TTSBody.project_id body in
  known ← gets (fun st => contains pid (PROJECTS st));
  raise_if (negb known) 404 "Project not found";;
  scripted ← gets (fun st => contains pid (SCRIPTS st));
  raise_if (negb scripted) 400 "Script missing";;
  let asset := voice_asset pid in
  setdefault_extend pid [asset];;
  mret asset.

(** [GET /project/{project_id}] *)
Definition get_project (project_id : string) : handler Tables ProjectView.t :=
  project ← gets (fun st => PROJECTS st !! project_id);
  match project with
  | None => raise 404 "Project not found"
  | Some project =>
      script ← gets (fun st => SCRIPTS st !! project_id);
      assets ← gets (fun st => get_or project_id [] (ASSETS st));
      render ← gets (fun st => RENDERS st !! project_id);
      mret {| ProjectView.project := project; ProjectView.script := script;
              ProjectView.assets := assets; ProjectView.render := render |}
  end.

(** [GET /health] *)
Definition health : handler Tables bool := mret true.

(** *** Requests reaching the process *)

Inductive request :=
  | Health
  | CreateProject (body : CreateProjectBody.t)
  | GenerateScript (body : GenerateScriptBody.t)
  | ProvideScript (body : ProvideScriptBody.t)
  | GenerateAIImages (body : GenerateAIImagesBody.t)
  | GenerateVoiceover (body : TTSBody.t)
  | GetProject (project_id : string).

Definition exec (r : request) (st : Tables) : Tables :=
  match r with
  | Health => (health st).2
  | CreateProject body => (create_project body st).2
  | GenerateScript body => (generate_script body st).2
  | ProvideScript body => (provide_script body st).2
  | GenerateAIImages body => (generate_ai_images body st).2
  | GenerateVoiceover body => (generate_voiceover body st).2
  | GetProject pid => (get_project pid st).2
  end.

Definition issued_by (r : request) (st : Tables) : option string :=
  match r with
  | CreateProject body =>
      match (create_project body st).1 with
      | Returned (pid, _) => Some pid
      | _ => None
      end
  | _ => None
  end.

Fixpoint run (rs : list request) (st : Tables) : Tables :=
  match rs with
  | [] => st
  | r :: rs' => run rs' (exec r st)
  end.

Fixpoint issued (rs : list request) (st : Tables) : list string :=
  match rs with
  | [] => []
  | r :: rs' => option_list (issued_by r st) ++ issued rs' (exec r st)
  end.

Definition reachable (st : Tables) : Prop := exists rs, st = run rs empty_tables.

End Backend.

(** * Properties of the tables *)

(** Referential integrity of [src/main.py]'s tables: every key of [SCRIPTS],
    [ASSETS] and [RENDERS] is a key of [PROJECTS], and the [project_id]
    field of every stored record is the key it is stored under. *)
Definition studio_integrity (st : Studio.Tables) : Prop :=
  (forall pid s, Studio.SCRIPTS st !! pid = Some s ->
     is_Some (Studio.PROJECTS st !! pid) /\ Studio.Script.project_id s = pid) /\
  (forall pid l, Studio.ASSETS st !! pid = Some l ->
     is_Some (Studio.PROJECTS st !! pid) /\
     forall a, a ∈ l -> Studio.MediaAsset.project_id a = pid) /\
  (forall pid r, Studio.RENDERS st !! pid = Some r ->
     is_Some (Studio.PROJECTS st !! pid) /\ Studio.RenderJob.project_id r = pid).

(** The same for [src/backend/main.py]. *)
Definition backend_integrity (st : Backend.Tables) : Prop :=
  (forall pid s, Backend.SCRIPTS st !! pid = Some s ->
     is_Some (Backend.PROJECTS st !! pid) /\ Backend.Script.project_id s = pid) /\
  (forall pid l, Backend.ASSETS st !! pid = Some l ->
     is_Some (Backend.PROJECTS st !! pid) /\
     forall a, a ∈ l -> Backend.MediaAsset.project_id a = pid) /\
  (forall pid r, Backend.RENDERS st !! pid = Some r ->
     is_Some (Backend.PROJECTS st !! pid) /\ Backend.RenderJob.project_id r = pid).

(** A handler call that fails with 404 and leaves the tables as they were. *)
Definition rejected_404 {St A} (call : handler St A) (st : St) : Prop :=
  call st = (HTTPException 404 "Project not found", st).

(** The timeline asked of the segments of a provided script, in the
    specification's words: every window has length [floor(total / lineCount)]
    with a minimum of 1, each window starts where the previous one ended,
    every segment has [end >= start], and the final segment ends no later
    than [total]. *)
Definition spec_timeline (total : Z) (segs : list Studio.ScriptSegment.t) : Prop :=
  let per := Z.max 1 (total / Z.of_nat (length segs)) in
  (forall i s, segs !! i = Some s ->
     Studio.ScriptSegment.end_ s - Studio.ScriptSegment.start s = per) /\
  (forall i s s', segs !! i = Some s -> segs !! S i = Some s' ->
     Studio.ScriptSegment.start s' = Studio.ScriptSegment.end_ s) /\
  (forall i s, segs !! i = Some s ->
     Studio.ScriptSegment.start s <= Studio.ScriptSegment.end_ s) /\
  (forall s, last segs = Some s -> Studio.ScriptSegment.end_ s <= total).

(** Start times never go back. *)
Definition starts_nondecreasing (segs : list Studio.ScriptSegment.t) : Prop :=
  forall i j s s', (i <= j)%nat -> segs !! i = Some s -> segs !! j = Some s' ->
    Studio.ScriptSegment.start s <= Studio.ScriptSegment.start s'.

(** A text of [n] lines, each the letter a. *)
Fixpoint text_of_lines (n : nat) : string :=
  match n with
  | O => ""
  | S n' => "a" +:+ PyStr.NL +:+ text_of_lines n'
  end.

(** The keys of [src/backend/main.py]'s [PROJECTS] are proj_1 ... proj_n
    for [n] the number of projects. *)
Definition backend_numbered (st : Backend.Tables) : Prop :=
  forall pid, is_Some (Backend.PROJECTS st !! pid) <->
    exists k : nat, (1 <= k <= size (Backend.PROJECTS st))%nat /\
                    pid = "proj_" +:+ pretty k.

(** The stored record of [src/main.py] for a title, a topic and validated
    mode and fandom: every other field is the schema's default. *)
Definition studio_project (title topic : string) (m : Studio.Mode) (f : Studio.Fandom)
    : Studio.Project.t :=
  {| Studio.Project.title := title; Studio.Project.topic := topic;
     Studio.Project.mode := m; Studio.Project.fandom := f;
     Studio.Project.use_ai_images := true;
     Studio.Project.use_stock_media := false;
     Studio.Project.use_ai_voice := true;
     Studio.Project.brand_primary := "#FACC15";
     Studio.Project.brand_secondary := "#18181B";
     Studio.Project.fps := 30; Studio.Project.max_seconds := 60 |}.

(** The stored record of [src/backend/main.py]. *)
Definition backend_project (title topic mode : string) (brand_name : option string)
    : Backend.Project.t :=
  {| Backend.Project.title := title; Backend.Project.topic := topic;
     Backend.Project.mode := mode; Backend.Project.status := "draft";
     Backend.Project.use_ai_script := true; Backend.Project.use_ai_voice := true;
     Backend.Project.use_stock_media := true; Backend.Project.use_ai_images := true;
     Backend.Project.brand_name := brand_name;
     Backend.Project.color_primary := Some "#FFD54A";
     Backend.Project.color_secondary := Some "#FFFFFF";
     Backend.Project.fps := 30; Backend.Project.max_seconds := 60 |}.

(** ** Reading requests *)

(** Whether a handler returned rather than raised. *)
Definition returned {A} (o : outcome A) : bool :=
  match o with Returned _ => true | _ => false end.

(** Whether a request of [src/main.py] is answered without an exception. *)
Definition studio_returns (r : Studio.request) (st : Studio.Tables) : bool :=
  match r with
  | Studio.Health => returned (Studio.health st).1
  | Studio.CreateProject u req => returned (Studio.create_project u req st).1
  | Studio.GetProject pid => returned (Studio.get_project pid st).1
  | Studio.GenerateScript req => returned (Studio.generate_script req st).1
  | Studio.ProvideScript req => returned (Studio.provide_script req st).1
  | Studio.AIImages draws req => returned (Studio.ai_images draws req st).1
  | Studio.Voice req => returned (Studio.voice req st).1
  end.

(** The same for [src/backend/main.py]. *)
Definition backend_returns (r : Backend.request) (st : Backend.Tables) : bool :=
  match r with
  | Backend.Health => returned (Backend.health st).1
  | Backend.CreateProject body => returned (Backend.create_project body st).1
  | Backend.GenerateScript body => returned (Backend.generate_script body st).1
  | Backend.ProvideScript body => returned (Backend.provide_script body st).1
  | Backend.GenerateAIImages body => returned (Backend.generate_ai_images body st).1
  | Backend.GenerateVoiceover body => returned (Backend.generate_voiceover body st).1
  | Backend.GetProject pid => returned (Backend.get_project pid st).1
  end.

(** The project id a request of [src/main.py] is about. *)
Definition studio_target (r : Studio.request) : option string :=
  match r with
  | Studio.Health => None
  | Studio.CreateProject u _ => Some u
  | Studio.GetProject pid => Some pid
  | Studio.GenerateScript req => Some (Studio.ScriptGenerateReq.project_id req)
  | Studio.ProvideScript req => Some (Studio.ScriptProvideReq.project_id req)
  | Studio.AIImages _ req => Some (Studio.AIImagesReq.project_id req)
  | Studio.Voice req => Some (Studio.VoiceReq.project_id req)
  end.

(** The project id a request of [src/backend/main.py] is about; a creation
    is about the id it is going to hand out. *)
Definition backend_target (r : Backend.request) (st : Backend.Tables) : option string :=
  match r with
  | Backend.Health => None
  | Backend.CreateProject _ => Some (Backend.next_pid (Backend.PROJECTS st))
  | Backend.GenerateScript body => Some (Backend.GenerateScriptBody.project_id body)
  | Backend.ProvideScript body => Some (Backend.ProvideScriptBody.project_id body)
  | Backend.GenerateAIImages body => Some (Backend.GenerateAIImagesBody.project_id body)
  | Backend.GenerateVoiceover body => Some (Backend.TTSBody.project_id body)
  | Backend.GetProject pid => Some pid
  end.

(** Requests that write a script, and requests that append assets. *)
Definition studio_script_request (r : Studio.request) : bool :=
  match r with
  | Studio.GenerateScript _ | Studio.ProvideScript _ => true
  | _ => false
  end.

Definition studio_asset_request (r : Studio.request) : bool :=
  match r with
  | Studio.AIImages _ _ | Studio.Voice _ => true
  | _ => false
  end.

Definition backend_script_request (r : Backend.request) : bool :=
  match r with
  | Backend.GenerateScript _ | Backend.ProvideScript _ => true
  | _ => false
  end.

(** How many requests of a sequence are creations. *)
Fixpoint backend_creations (rs : list Backend.request) : nat :=
  match rs with
  | [] => 0%nat
  | Backend.CreateProject _ :: rs' => S (backend_creations rs')
  | _ :: rs' => backend_creations rs'
  end.

(** ** Reading strings *)

(** Every character satisfies [p]. *)
Fixpoint all_chars (p : ascii -> bool) (s : string) : bool :=
  match s with
  | "" => true
  | String c s' => p c && all_chars p s'
  end.

(** The first character, if any, is not whitespace. *)
Definition starts_clean (s : string) : bool :=
  match s with
  | "" => true
  | String c _ => negb (PyStr.isspace c)
  end.

(** Non-empty, with neither leading nor trailing whitespace. *)
Definition trimmed (s : string) : bool :=
  PyStr.truthy s && starts_clean s && starts_clean (String.rev s).

(** The filter of both segmentations, [if l.strip()]. *)
Definition kept (l : string) : bool := PyStr.truthy (PyStr.strip l).

(** Neither a carriage return nor a line feed. *)
Definition not_crlf (c : ascii) : bool :=
  negb (bool_decide (c = PyStr.CR)) && negb (bool_decide (c = PyStr.LF)).

(** Not a line boundary of [str.splitlines]. *)
Definition not_linebreak (c : ascii) : bool := negb (PyStr.islinebreak c).

(** A line boundary, if at all, only as carriage return or line feed. *)
Definition plain_break (c : ascii) : bool :=
  not_linebreak c || bool_decide (c = PyStr.CR) || bool_decide (c = PyStr.LF).

(** * Facts about the string methods *)

Section PyStrFacts.
Import PyStr.

Lemma rev_app_all_space (s acc : string) :
  all_space s = true -> all_space acc = true ->
  all_space (String.rev_app s acc) = true.
Proof.
  revert acc. induction s as [|c s IH]; intros acc Hs Hacc; simpl in *; [done|].
  apply andb_true_iff in Hs as [Hc Hs]. apply IH; [done|].
  simpl. by rewrite Hc.
Qed.

Lemma rev_all_space (s : string) :
  all_space s = true -> all_space (String.rev s) = true.
Proof. intros Hs. by apply rev_app_all_space. Qed.

Lemma lstrip_all_space (s : string) : all_space s = true -> lstrip s = "".
Proof.
  induction s as [|c s IH]; simpl; [done|].
  intros [Hc Hs]%andb_true_iff. rewrite Hc. auto.
Qed.

(** Stripping a blank string leaves nothing. *)
Lemma strip_all_space (s : string) : all_space s = true -> strip s = "".
Proof. intros Hs. unfold strip. by rewrite (lstrip_all_space s Hs). Qed.

Lemma splitlines_go_all_space_upto (n : nat) (s line : string) :
  (String.length s <= n)%nat ->
  all_space s = true -> all_space line = true ->
  Forall (fun l => all_space l = true) (splitlines_go line s).
Proof.
  revert s line. induction n as [|n IH]; intros s line Hn Hs Hline.
  - destruct s; simpl in *; [|lia].
    destruct (truthy line); constructor; auto using rev_all_space.
  - destruct s as [|c s]; simpl in *.
    + destruct (truthy line); constructor; auto using rev_all_space.
    + apply andb_true_iff in Hs as [Hc Hs].
      destruct (islinebreak c).
      * constructor; [by apply rev_all_space|].
        assert (Hrest : Forall (fun l => all_space l = true) (splitlines_go "" s))
          by (apply IH; [lia|done..]).
        destruct c as [[] [] [] [] [] [] [] []]; try exact Hrest.
        destruct s as [|c' s']; [exact Hrest|].
        destruct c' as [[] [] [] [] [] [] [] []]; try exact Hrest.
        simpl in Hs, Hn. apply IH; [lia|done..].
      * apply IH; [lia|done|]. simpl. by rewrite Hc.
Qed.

Lemma splitlines_all_space (s : string) :
  all_space s = true ->
  Forall (fun l => all_space l = true) (splitlines s).
Proof. intros Hs. by apply (splitlines_go_all_space_upto (String.length s)). Qed.

Lemma replace_all_space (a b : ascii) (s : string) :
  isspace b = true -> all_space s = true -> all_space (replace a b s) = true.
Proof.
  intros Hb. induction s as [|c s IH]; simpl; [done|].
  intros [Hc Hs]%andb_true_iff. rewrite (IH Hs).
  destruct (decide (c = a)); by rewrite ?Hb, ?Hc.
Qed.

Lemma split_go_all_space (sep : ascii) (s cur : string) :
  all_space s = true -> all_space cur = true ->
  Forall (fun l => all_space l = true) (split_go sep cur s).
Proof.
  revert cur. induction s as [|c s IH]; intros cur Hs Hcur; simpl.
  - constructor; auto using rev_all_space.
  - simpl in Hs. apply andb_true_iff in Hs as [Hc Hs].
    destruct (decide (c = sep)).
    + constructor; [by apply rev_all_space|]. by apply IH.
    + apply IH; [done|]. simpl. by rewrite Hc.
Qed.

(** Blank pieces do not survive [if s.strip()]. *)
Lemma filter_strip_blank (pieces : list string) :
  Forall (fun l => all_space l = true) pieces ->
  List.filter (fun l => truthy (strip l)) pieces = [].
Proof.
  induction 1 as [|l ls Hl _ IH]; simpl; [done|].
  by rewrite (strip_all_space l Hl).
Qed.

End PyStrFacts.

(** * Facts about the dictionary operations *)

Section DictFacts.
Context {V : Type}.
Implicit Types (d : gmap string V) (k : string).

Lemma contains_true d k : contains k d = true <-> is_Some (d !! k).
Proof. unfold contains. apply bool_decide_eq_true. Qed.

Lemma contains_false d k : contains k d = false <-> d !! k = None.
Proof.
  unfold contains. rewrite bool_decide_eq_false. symmetry. apply eq_None_not_Some.
Qed.

Lemma contains_dom d k : contains k d = true <-> k ∈ dom d.
Proof. rewrite contains_true. symmetry. apply elem_of_dom. Qed.

Lemma setdefault_lookup d k v : setdefault k v d !! k = Some (default v (d !! k)).
Proof.
  unfold setdefault. destruct (d !! k) eqn:E; simpl; [done|].
  apply lookup_insert_eq.
Qed.

Lemma setdefault_lookup_ne d k k' v : k ≠ k' -> setdefault k v d !! k' = d !! k'.
Proof.
  intros Hne. unfold setdefault. destruct (d !! k); [done|].
  by apply lookup_insert_ne.
Qed.

(** [setdefault] followed by the write-back of the extended list is one
    insertion. *)
Lemma insert_setdefault d k v w : <[k := w]> (setdefault k v d) = <[k := w]> d.
Proof.
  unfold setdefault. destruct (d !! k); [done|]. apply insert_insert_eq.
Qed.

End DictFacts.

(** * Sequencing of handler steps *)

Section HandlerFacts.
Context {St A B : Type}.
Implicit Types (k : A -> handler St B) (st : St).

Lemma bind_gets (f : St -> A) k st : (gets f ≫= k) st = k (f st) st.
Proof. reflexivity. Qed.

Lemma bind_modify (f : St -> St) (k : unit -> handler St B) st :
  (modify f ≫= k) st = k tt (f st).
Proof. reflexivity. Qed.

Lemma bind_raise_if (c : bool) status detail (k : unit -> handler St B) st :
  (raise_if c status detail ≫= k) st
  = if c then (HTTPException status detail, st) else k tt st.
Proof. by destruct c. Qed.

Lemma bind_returned (m : handler St A) k st a st' :
  m st = (Returned a, st') -> (m ≫= k) st = k a st'.
Proof. intros E. unfold mbind, handler_bind. by rewrite E. Qed.

End HandlerFacts.

(** * The handlers of [src/main.py], as equations *)

Section StudioHandlers.
Import Studio.
Implicit Types (st : Tables) (pid : string).

Lemma studio_create_project_eq (u : string) req st :
  create_project u req st =
    match Project.new (CreateProjectReq.title req) (CreateProjectReq.topic req)
                      (CreateProjectReq.mode req) (CreateProjectReq.fandom req) with
    | Some project => (Returned u, on_PROJECTS <[u := project]> st)
    | None => (Uncaught "ValidationError", st)
    end.
Proof. unfold create_project. by destruct (Project.new _ _ _ _). Qed.

Lemma studio_get_project_eq pid st :
  get_project pid st =
    match PROJECTS st !! pid with
    | Some project =>
        (Returned {| ProjectView.project := project;
                     ProjectView.script := SCRIPTS st !! pid;
                     ProjectView.assets := get_or pid [] (ASSETS st);
                     ProjectView.render := RENDERS st !! pid |}, st)
    | None => (HTTPException 404 "Project not found", st)
    end.
Proof.
  unfold get_project, mbind, handler_bind, gets. simpl.
  by destruct (PROJECTS st !! pid).
Qed.

Lemma studio_generate_script_eq req st :
  generate_script req st =
    if contains (ScriptGenerateReq.project_id req) (PROJECTS st)
    then (Returned true,
          on_SCRIPTS <[ScriptGenerateReq.project_id req := generated_script req]> st)
    else (HTTPException 404 "Project not found", st).
Proof.
  unfold generate_script, mbind, handler_bind, gets. simpl.
  by destruct (contains _ _).
Qed.

Lemma studio_provide_script_eq req st :
  provide_script req st =
    if contains (ScriptProvideReq.project_id req) (PROJECTS st)
    then (Returned true,
          on_SCRIPTS <[ScriptProvideReq.project_id req := provided_script req]> st)
    else (HTTPException 404 "Project not found", st).
Proof.
  unfold provide_script, mbind, handler_bind, gets. simpl.
  by destruct (contains _ _).
Qed.

Lemma studio_extend_eq pid more st :
  extend_assets pid more (on_ASSETS (setdefault pid []) st)
  = (Returned tt, appended pid more st).
Proof.
  unfold extend_assets. rewrite bind_gets. simpl.
  rewrite setdefault_lookup. unfold modify, appended, on_ASSETS, get_or. simpl.
  by rewrite insert_setdefault.
Qed.

Lemma studio_ai_images_eq draws req st :
  ai_images draws req st =
    if contains (AIImagesReq.project_id req) (PROJECTS st)
    then let assets := picked_assets draws (AIImagesReq.project_id req)
                         (AIImagesReq.fandom req) in
         (Returned (length assets), appended (AIImagesReq.project_id req) assets st)
    else (HTTPException 404 "Project not found", st).
Proof.
  unfold ai_images. rewrite bind_gets, bind_raise_if.
  destruct (contains _ _); simpl negb; cbv iota; [|done].
  rewrite bind_modify.
  by rewrite (bind_returned _ _ _ _ _ (studio_extend_eq _ _ _)).
Qed.

Lemma studio_voice_eq req st :
  voice req st =
    if contains (VoiceReq.project_id req) (PROJECTS st)
    then (Returned true,
          appended (VoiceReq.project_id req) [voice_asset (VoiceReq.project_id req)] st)
    else (HTTPException 404 "Project not found", st).
Proof.
  unfold voice. rewrite bind_gets, bind_raise_if.
  destruct (contains _ _); simpl negb; cbv iota; [|done].
  rewrite bind_modify.
  by rewrite (bind_returned _ _ _ _ _ (studio_extend_eq _ _ _)).
Qed.

End StudioHandlers.

(** * The handlers of [src/backend/main.py], as equations *)

Section BackendHandlers.
Import Backend.
Implicit Types (st : Tables) (pid : string).

Lemma backend_create_project_eq body st :
  create_project body st =
    let project := Project.new (CreateProjectBody.title body)
                     (CreateProjectBody.topic body) (CreateProjectBody.mode body)
                     (CreateProjectBody.brand_name body) in
    (Returned (next_pid (PROJECTS st), project),
     on_PROJECTS <[next_pid (PROJECTS st) := project]> st).
Proof. reflexivity. Qed.

Lemma backend_get_project_eq pid st :
  get_project pid st =
    match PROJECTS st !! pid with
    | Some project =>
        (Returned {| ProjectView.project := project;
                     ProjectView.script := SCRIPTS st !! pid;
                     ProjectView.assets := get_or pid [] (ASSETS st);
                     ProjectView.render := RENDERS st !! pid |}, st)
    | None => (HTTPException 404 "Project not found", st)
    end.
Proof.
  unfold get_project, mbind, handler_bind, gets. simpl.
  by destruct (PROJECTS st !! pid).
Qed.

Lemma backend_generate_script_eq body st :
  generate_script body st =
    match PROJECTS st !! GenerateScriptBody.project_id body with
    | Some project =>
        let script := generated_script (GenerateScriptBody.project_id body)
                        (str_or (GenerateScriptBody.topic body) (Project.topic project)) in
        (Returned script,
         on_SCRIPTS <[GenerateScriptBody.project_id body := script]> st)
    | None => (HTTPException 404 "Project not found", st)
    end.
Proof.
  unfold generate_script, topic_or_stored, mbind, handler_bind, gets. simpl.
  destruct (contains _ _) eqn:K; simpl.
  - apply contains_true in K as [project E]. rewrite E. simpl.
    destruct (GenerateScriptBody.topic body) as [s|]; simpl.
    + destruct (PyStr.truthy s); simpl; [done|]. by rewrite E.
    + by rewrite E.
  - apply contains_false in K. by rewrite K.
Qed.

Lemma backend_provide_script_eq body st :
  provide_script body st =
    if contains (ProvideScriptBody.project_id body) (PROJECTS st)
    then let script := Script.make (ProvideScriptBody.project_id body)
                         (ProvideScriptBody.text body)
                         (provided_segments (ProvideScriptBody.text body)) in
         (Returned script,
          on_SCRIPTS <[ProvideScriptBody.project_id body := script]> st)
    else (HTTPException 404 "Project not found", st).
Proof.
  unfold provide_script, mbind, handler_bind, gets. simpl.
  by destruct (contains _ _).
Qed.

Lemma backend_setdefault_extend_eq pid more st :
  setdefault_extend pid more st = (Returned tt, appended pid more st).
Proof.
  unfold setdefault_extend, mbind, handler_bind, gets, modify. simpl.
  unfold appended, on_ASSETS, get_or. simpl.
  by rewrite setdefault_lookup, insert_setdefault.
Qed.

Lemma backend_generate_ai_images_eq body st :
  generate_ai_images body st =
    if contains (GenerateAIImagesBody.project_id body) (PROJECTS st)
    then (Returned (image_assets body),
          appended (GenerateAIImagesBody.project_id body) (image_assets body) st)
    else (HTTPException 404 "Project not found", st).
Proof.
  unfold generate_ai_images. rewrite bind_gets, bind_raise_if.
  destruct (contains _ _); simpl negb; cbv iota; [|done].
  by rewrite (bind_returned _ _ _ _ _ (backend_setdefault_extend_eq _ _ _)).
Qed.

Lemma backend_generate_voiceover_eq body st :
  generate_voiceover body st =
    if contains (TTSBody.project_id body) (PROJECTS st) then
      if contains (TTSBody.project_id body) (SCRIPTS st)
      then (Returned (voice_asset (TTSBody.project_id body)),
            appended (TTSBody.project_id body)
              [voice_asset (TTSBody.project_id body)] st)
      else (HTTPException 400 "Script missing", st)
    else (HTTPException 404 "Project not found", st).
Proof.
  unfold generate_voiceover. rewrite bind_gets, bind_raise_if.
  destruct (contains _ (PROJECTS st)); simpl negb; cbv iota; [|done].
  rewrite bind_gets, bind_raise_if.
  destruct (contains _ (SCRIPTS st)); simpl negb; cbv iota; [|done].
  by rewrite (bind_returned _ _ _ _ _ (backend_setdefault_extend_eq _ _ _)).
Qed.

End BackendHandlers.

(** * Referential integrity *)

Section StudioIntegrity.
Import Studio.
Implicit Types (st : Tables) (pid : string).

Lemma studio_integrity_empty : studio_integrity empty_tables.
Proof. split_and!; intros k x Hk; simpl in Hk; by rewrite lookup_empty in Hk. Qed.

Lemma studio_integrity_on_PROJECTS st pid project :
  studio_integrity st -> studio_integrity (on_PROJECTS <[pid := project]> st).
Proof.
  intros (Hs & Ha & Hr).
  split_and!; simpl; intros k x Hk;
    [destruct (Hs k x Hk) | destruct (Ha k x Hk) | destruct (Hr k x Hk)];
    (split; [apply lookup_insert_is_Some'; by right | done]).
Qed.

Lemma studio_integrity_on_SCRIPTS st pid script :
  is_Some (PROJECTS st !! pid) -> Script.project_id script = pid ->
  studio_integrity st -> studio_integrity (on_SCRIPTS <[pid := script]> st).
Proof.
  intros Hp Hid (Hs & Ha & Hr). split; [|by split].
  simpl. intros k x Hk. destruct (decide (pid = k)) as [->|Hne].
  - rewrite lookup_insert_eq in Hk. by inversion Hk; subst.
  - rewrite lookup_insert_ne in Hk by done. by apply Hs.
Qed.

Lemma studio_integrity_appended st pid more :
  is_Some (PROJECTS st !! pid) ->
  (forall a, a ∈ more -> MediaAsset.project_id a = pid) ->
  studio_integrity st -> studio_integrity (appended pid more st).
Proof.
  intros Hp Hmore (Hs & Ha & Hr). split; [done|]. split; [|done].
  simpl. intros k l Hk. destruct (decide (pid = k)) as [->|Hne].
  - rewrite lookup_insert_eq in Hk. inversion Hk; subst. split; [done|].
    intros a [Hin|Hin]%elem_of_app; [|by apply Hmore].
    unfold get_or in Hin. destruct (ASSETS st !! k) as [l|] eqn:E; simpl in Hin.
    + by apply (Ha k l E).
    + by apply elem_of_nil in Hin.
  - rewrite lookup_insert_ne in Hk by done. by apply Ha.
Qed.

Lemma picked_assets_project_id draws pid fandom a :
  a ∈ picked_assets draws pid fandom -> MediaAsset.project_id a = pid.
Proof.
  unfold picked_assets. destruct (resolve_fandom fandom) as [pool prompts].
  intros (up & -> & _)%list_elem_of_fmap. reflexivity.
Qed.

(** Every request keeps the integrity of the tables. *)
Lemma studio_exec_integrity r st :
  studio_integrity st -> studio_integrity (exec r st).
Proof.
  intros Hinv. destruct r as [|u req|pid|req|req|draws req|req]; cbn [exec].
  - done.
  - rewrite studio_create_project_eq.
    destruct (Project.new _ _ _ _); simpl; [|done].
    by apply studio_integrity_on_PROJECTS.
  - rewrite studio_get_project_eq. by destruct (PROJECTS st !! pid).
  - rewrite studio_generate_script_eq.
    destruct (contains _ _) eqn:K; simpl; [|done].
    apply studio_integrity_on_SCRIPTS; [by apply contains_true|done..].
  - rewrite studio_provide_script_eq.
    destruct (contains _ _) eqn:K; simpl; [|done].
    apply studio_integrity_on_SCRIPTS; [by apply contains_true|done..].
  - rewrite studio_ai_images_eq.
    destruct (contains _ _) eqn:K; simpl; [|done].
    apply studio_integrity_appended; [by apply contains_true| |done].
    intros a. apply picked_assets_project_id.
  - rewrite studio_voice_eq.
    destruct (contains _ _) eqn:K; simpl; [|done].
    apply studio_integrity_appended; [by apply contains_true| |done].
    by intros a ->%list_elem_of_singleton.
Qed.

Lemma studio_run_integrity rs st :
  studio_integrity st -> studio_integrity (run rs st).
Proof.
  revert st. induction rs as [|r rs IH]; intros st Hinv; simpl; [done|].
  apply IH. by apply studio_exec_integrity.
Qed.

Lemma studio_reachable_integrity st : reachable st -> studio_integrity st.
Proof.
  intros [rs ->]. apply studio_run_integrity, studio_integrity_empty.
Qed.

End StudioIntegrity.

Section BackendIntegrity.
Import Backend.
Implicit Types (st : Tables) (pid : string).

Lemma backend_integrity_empty : backend_integrity empty_tables.
Proof. split_and!; intros k x Hk; simpl in Hk; by rewrite lookup_empty in Hk. Qed.

Lemma backend_integrity_on_PROJECTS st pid project :
  backend_integrity st -> backend_integrity (on_PROJECTS <[pid := project]> st).
Proof.
  intros (Hs & Ha & Hr).
  split_and!; simpl; intros k x Hk;
    [destruct (Hs k x Hk) | destruct (Ha k x Hk) | destruct (Hr k x Hk)];
    (split; [apply lookup_insert_is_Some'; by right | done]).
Qed.

Lemma backend_integrity_on_SCRIPTS st pid script :
  is_Some (PROJECTS st !! pid) -> Script.project_id script = pid ->
  backend_integrity st -> backend_integrity (on_SCRIPTS <[pid := script]> st).
Proof.
  intros Hp Hid (Hs & Ha & Hr). split; [|by split].
  simpl. intros k x Hk. destruct (decide (pid = k)) as [->|Hne].
  - rewrite lookup_insert_eq in Hk. by inversion Hk; subst.
  - rewrite lookup_insert_ne in Hk by done. by apply Hs.
Qed.

Lemma backend_integrity_appended st pid more :
  is_Some (PROJECTS st !! pid) ->
  (forall a, a ∈ more -> MediaAsset.project_id a = pid) ->
  backend_integrity st -> backend_integrity (appended pid more st).
Proof.
  intros Hp Hmore (Hs & Ha & Hr). split; [done|]. split; [|done].
  simpl. intros k l Hk. destruct (decide (pid = k)) as [->|Hne].
  - rewrite lookup_insert_eq in Hk. inversion Hk; subst. split; [done|].
    intros a [Hin|Hin]%elem_of_app; [|by apply Hmore].
    unfold get_or in Hin. destruct (ASSETS st !! k) as [l|] eqn:E; simpl in Hin.
    + by apply (Ha k l E).
    + by apply elem_of_nil in Hin.
  - rewrite lookup_insert_ne in Hk by done. by apply Ha.
Qed.

Lemma image_assets_project_id body a :
  a ∈ image_assets body ->
  MediaAsset.project_id a = GenerateAIImagesBody.project_id body.
Proof. unfold image_assets. by intros (up & -> & _)%list_elem_of_fmap. Qed.

Lemma backend_exec_integrity r st :
  backend_integrity st -> backend_integrity (exec r st).
Proof.
  intros Hinv. destruct r as [|body|body|body|body|body|pid]; cbn [exec].
  - done.
  - rewrite backend_create_project_eq. by apply backend_integrity_on_PROJECTS.
  - rewrite backend_generate_script_eq.
    destruct (PROJECTS st !! _) eqn:K; simpl; [|done].
    apply backend_integrity_on_SCRIPTS; [by rewrite K|done..].
  - rewrite backend_provide_script_eq.
    destruct (contains _ _) eqn:K; simpl; [|done].
    apply backend_integrity_on_SCRIPTS; [by apply contains_true|done..].
  - rewrite backend_generate_ai_images_eq.
    destruct (contains _ _) eqn:K; simpl; [|done].
    apply backend_integrity_appended; [by apply contains_true| |done].
    intros a. apply image_assets_project_id.
  - rewrite backend_generate_voiceover_eq.
    destruct (contains _ (PROJECTS st)) eqn:K; simpl; [|done].
    destruct (contains _ (SCRIPTS st)) eqn:K'; simpl; [|done].
    apply backend_integrity_appended; [by apply contains_true| |done].
    by intros a ->%list_elem_of_singleton.
  - rewrite backend_get_project_eq. by destruct (PROJECTS st !! pid).
Qed.

Lemma backend_run_integrity rs st :
  backend_integrity st -> backend_integrity (run rs st).
Proof.
  revert st. induction rs as [|r rs IH]; intros st Hinv; simpl; [done|].
  apply IH. by apply backend_exec_integrity.
Qed.

Lemma backend_reachable_integrity st : reachable st -> backend_integrity st.
Proof.
  intros [rs ->]. apply backend_run_integrity, backend_integrity_empty.
Qed.

End BackendIntegrity.

(** C1.  In both variants every reachable state has referential integrity
    (each key of the Scripts, Assets and Renders tables is a key of the
    Projects table), and each of GenerateScript, ProvideScript,
    GenerateImageAssets, GenerateVoiceAsset and GetProject, called with a
    project id that is not in the Projects table, fails with the 404
    "Project not found" and leaves all four tables as they were. *)
Theorem C1_referential_integrity :
  (forall st, Studio.reachable st -> studio_integrity st) /\
  (forall st pid, Studio.PROJECTS st !! pid = None ->
     (forall topic, rejected_404 (Studio.generate_script (Studio.ScriptGenerateReq.make pid topic)) st) /\
     (forall text, rejected_404 (Studio.provide_script (Studio.ScriptProvideReq.make pid text)) st) /\
     (forall draws fandom, rejected_404 (Studio.ai_images draws (Studio.AIImagesReq.make pid fandom)) st) /\
     rejected_404 (Studio.voice (Studio.VoiceReq.make pid)) st /\
     rejected_404 (Studio.get_project pid) st) /\
  (forall st, Backend.reachable st -> backend_integrity st) /\
  (forall st pid, Backend.PROJECTS st !! pid = None ->
     (forall topic, rejected_404 (Backend.generate_script (Backend.GenerateScriptBody.make pid topic)) st) /\
     (forall text, rejected_404 (Backend.provide_script (Backend.ProvideScriptBody.make pid text)) st) /\
     (forall prompts fandom,
        rejected_404 (Backend.generate_ai_images (Backend.GenerateAIImagesBody.make pid prompts fandom)) st) /\
     (forall voice, rejected_404 (Backend.generate_voiceover (Backend.TTSBody.make pid voice)) st) /\
     rejected_404 (Backend.get_project pid) st).
Proof.
  split; [exact studio_reachable_integrity|].
  split.
  { intros st pid Hnone. pose proof (proj2 (contains_false _ _) Hnone) as K.
    unfold rejected_404. split_and!; intros.
    - rewrite studio_generate_script_eq. simpl. by rewrite K.
    - rewrite studio_provide_script_eq. simpl. by rewrite K.
    - rewrite studio_ai_images_eq. simpl. by rewrite K.
    - rewrite studio_voice_eq. simpl. by rewrite K.
    - rewrite studio_get_project_eq. by rewrite Hnone. }
  split; [exact backend_reachable_integrity|].
  intros st pid Hnone. pose proof (proj2 (contains_false _ _) Hnone) as K.
  unfold rejected_404. split_and!; intros.
  - rewrite backend_generate_script_eq. simpl. by rewrite Hnone.
  - rewrite backend_provide_script_eq. simpl. by rewrite K.
  - rewrite backend_generate_ai_images_eq. simpl. by rewrite K.
  - rewrite backend_generate_voiceover_eq. simpl. by rewrite K.
  - rewrite backend_get_project_eq. by rewrite Hnone.
Qed.

Lemma C1_referential_integrity_witness :
  studio_integrity
    (Studio.run
       [Studio.CreateProject "u1" (Studio.CreateProjectReq.parse "T" "Dragons" None None);
        Studio.GenerateScript (Studio.ScriptGenerateReq.make "u1" "Dragons")]
       Studio.empty_tables) /\
  rejected_404 (Studio.get_project "ghost") Studio.empty_tables /\
  backend_integrity
    (Backend.run
       [Backend.CreateProject (Backend.CreateProjectBody.make "T" "Dragons" "auto" None None);
        Backend.GenerateVoiceover (Backend.TTSBody.parse "proj_1" None)]
       Backend.empty_tables) /\
  rejected_404 (Backend.generate_voiceover (Backend.TTSBody.make "ghost" None))
    Backend.empty_tables.
Proof.
  destruct C1_referential_integrity as (HS & HS404 & HB & HB404).
  split_and!.
  - apply HS. eexists. reflexivity.
  - apply (HS404 Studio.empty_tables "ghost"). reflexivity.
  - apply HB. eexists. reflexivity.
  - apply (HB404 Backend.empty_tables "ghost"). reflexivity.
Defined.

(** * Reads and failed calls leave the tables alone *)

(** C10.  GetProject is read-only in both variants: for every project id,
    known or not, the four tables after the call are the tables before it;
    in particular the Assets table has the same entry (or none) for the
    queried id, so no empty list is inserted for a project without assets. *)
Theorem C10_get_project_read_only :
  (forall pid st,
     (Studio.get_project pid st).2 = st /\
     Studio.ASSETS (Studio.get_project pid st).2 !! pid = Studio.ASSETS st !! pid) /\
  (forall pid st,
     (Backend.get_project pid st).2 = st /\
     Backend.ASSETS (Backend.get_project pid st).2 !! pid = Backend.ASSETS st !! pid).
Proof.
  split; intros pid st.
  - rewrite studio_get_project_eq. by destruct (Studio.PROJECTS st !! pid).
  - rewrite backend_get_project_eq. by destruct (Backend.PROJECTS st !! pid).
Qed.

(** C3.  In the strict variant ([src/backend/main.py]) GenerateVoiceAsset on
    an existing project without a stored Script fails with the 400
    "Script missing" and the tables after the call are the tables before it,
    so the project's asset list has the same length and contents. *)
Theorem C3_voice_requires_script (st : Backend.Tables) (body : Backend.TTSBody.t) :
  is_Some (Backend.PROJECTS st !! Backend.TTSBody.project_id body) ->
  Backend.SCRIPTS st !! Backend.TTSBody.project_id body = None ->
  Backend.generate_voiceover body st = (HTTPException 400 "Script missing", st).
Proof.
  intros Hp%contains_true Hs%contains_false.
  rewrite backend_generate_voiceover_eq. by rewrite Hp, Hs.
Qed.

Lemma C3_voice_requires_script_witness :
  let st := Backend.run
      [Backend.CreateProject (Backend.CreateProjectBody.make "T" "Dragons" "auto" None None)]
      Backend.empty_tables in
  Backend.generate_voiceover (Backend.TTSBody.parse "proj_1" None) st
    = (HTTPException 400 "Script missing", st).
Proof.
  apply C3_voice_requires_script.
  - vm_compute. eauto.
  - reflexivity.
Defined.

(** * Scripts are replaced, assets are appended *)

Section Overwrite.

Lemma studio_on_SCRIPTS_twice (st : Studio.Tables) pid s1 s2 :
  Studio.on_SCRIPTS <[pid := s2]> (Studio.on_SCRIPTS <[pid := s1]> st)
  = Studio.on_SCRIPTS <[pid := s2]> st.
Proof. unfold Studio.on_SCRIPTS. simpl. by rewrite insert_insert_eq. Qed.

Lemma backend_on_SCRIPTS_twice (st : Backend.Tables) pid s1 s2 :
  Backend.on_SCRIPTS <[pid := s2]> (Backend.on_SCRIPTS <[pid := s1]> st)
  = Backend.on_SCRIPTS <[pid := s2]> st.
Proof. unfold Backend.on_SCRIPTS. simpl. by rewrite insert_insert_eq. Qed.

End Overwrite.

(** C7.  On an existing project, two successive GenerateScript calls (any
    topics) leave the tables exactly as the second call alone would: the
    Scripts table holds one Script for the project, the one built by the
    second call, and GetProject then returns that script.  The same holds
    for two successive ProvideScript calls.  Both variants. *)
Theorem C7_script_replaced :
  (forall st pid topic1 topic2,
     is_Some (Studio.PROJECTS st !! pid) ->
     let r1 := Studio.ScriptGenerateReq.make pid topic1 in
     let r2 := Studio.ScriptGenerateReq.make pid topic2 in
     let st2 := (Studio.generate_script r2 (Studio.generate_script r1 st).2).2 in
     st2 = (Studio.generate_script r2 st).2 /\
     Studio.SCRIPTS st2 = <[pid := Studio.generated_script r2]> (Studio.SCRIPTS st) /\
     exists view, (Studio.get_project pid st2).1 = Returned view /\
       Studio.ProjectView.script view = Some (Studio.generated_script r2)) /\
  (forall st pid text1 text2,
     is_Some (Studio.PROJECTS st !! pid) ->
     let r1 := Studio.ScriptProvideReq.make pid text1 in
     let r2 := Studio.ScriptProvideReq.make pid text2 in
     let st2 := (Studio.provide_script r2 (Studio.provide_script r1 st).2).2 in
     st2 = (Studio.provide_script r2 st).2 /\
     Studio.SCRIPTS st2 = <[pid := Studio.provided_script r2]> (Studio.SCRIPTS st) /\
     exists view, (Studio.get_project pid st2).1 = Returned view /\
       Studio.ProjectView.script view = Some (Studio.provided_script r2)) /\
  (forall st pid project topic1 topic2,
     Backend.PROJECTS st !! pid = Some project ->
     let b1 := Backend.GenerateScriptBody.make pid topic1 in
     let b2 := Backend.GenerateScriptBody.make pid topic2 in
     let script2 := Backend.generated_script pid
                      (Backend.str_or topic2 (Backend.Project.topic project)) in
     let st2 := (Backend.generate_script b2 (Backend.generate_script b1 st).2).2 in
     st2 = (Backend.generate_script b2 st).2 /\
     (Backend.generate_script b2 (Backend.generate_script b1 st).2).1 = Returned script2 /\
     Backend.SCRIPTS st2 = <[pid := script2]> (Backend.SCRIPTS st) /\
     exists view, (Backend.get_project pid st2).1 = Returned view /\
       Backend.ProjectView.script view = Some script2) /\
  (forall st pid text1 text2,
     is_Some (Backend.PROJECTS st !! pid) ->
     let b1 := Backend.ProvideScriptBody.make pid text1 in
     let b2 := Backend.ProvideScriptBody.make pid text2 in
     let script2 := Backend.Script.make pid text2 (Backend.provided_segments text2) in
     let st2 := (Backend.provide_script b2 (Backend.provide_script b1 st).2).2 in
     st2 = (Backend.provide_script b2 st).2 /\
     (Backend.provide_script b2 (Backend.provide_script b1 st).2).1 = Returned script2 /\
     Backend.SCRIPTS st2 = <[pid := script2]> (Backend.SCRIPTS st) /\
     exists view, (Backend.get_project pid st2).1 = Returned view /\
       Backend.ProjectView.script view = Some script2).
Proof.
  split_and!.
  - intros st pid topic1 topic2 Hp. pose proof Hp as [project Hproject].
    apply contains_true in Hp. cbv zeta.
    rewrite !studio_generate_script_eq. simpl. rewrite Hp. simpl. rewrite Hp. simpl.
    rewrite ?studio_on_SCRIPTS_twice, ?insert_insert_eq. split_and!; [done..|].
    rewrite studio_get_project_eq. simpl. rewrite Hproject. simpl.
    eexists. split; [done|]. simpl. apply lookup_insert_eq.
  - intros st pid text1 text2 Hp. pose proof Hp as [project Hproject].
    apply contains_true in Hp. cbv zeta.
    rewrite !studio_provide_script_eq. simpl. rewrite Hp. simpl. rewrite Hp. simpl.
    rewrite ?studio_on_SCRIPTS_twice, ?insert_insert_eq. split_and!; [done..|].
    rewrite studio_get_project_eq. simpl. rewrite Hproject. simpl.
    eexists. split; [done|]. simpl. apply lookup_insert_eq.
  - intros st pid project topic1 topic2 Hproject. cbv zeta.
    rewrite !backend_generate_script_eq. simpl. rewrite Hproject. simpl.
    rewrite Hproject. simpl.
    rewrite ?backend_on_SCRIPTS_twice, ?insert_insert_eq. split_and!; [done..|].
    rewrite backend_get_project_eq. simpl. rewrite Hproject. simpl.
    eexists. split; [done|]. simpl. apply lookup_insert_eq.
  - intros st pid text1 text2 Hp. pose proof Hp as [project Hproject].
    apply contains_true in Hp. cbv zeta.
    rewrite !backend_provide_script_eq. simpl. rewrite Hp. simpl. rewrite Hp. simpl.
    rewrite ?backend_on_SCRIPTS_twice, ?insert_insert_eq. split_and!; [done..|].
    rewrite backend_get_project_eq. simpl. rewrite Hproject. simpl.
    eexists. split; [done|]. simpl. apply lookup_insert_eq.
Qed.

Lemma C7_script_replaced_witness :
  let st := Studio.run
      [Studio.CreateProject "u1" (Studio.CreateProjectReq.parse "T" "Dragons" None None)]
      Studio.empty_tables in
  let r2 := Studio.ScriptGenerateReq.make "u1" "Wolves" in
  Studio.SCRIPTS
    (Studio.generate_script r2
       (Studio.generate_script (Studio.ScriptGenerateReq.make "u1" "Dragons") st).2).2
  = <["u1" := Studio.generated_script r2]> (Studio.SCRIPTS st).
Proof.
  destruct C7_script_replaced as (H & _).
  refine (proj1 (proj2 (H _ "u1" "Dragons" "Wolves" _))).
  vm_compute. eauto.
Defined.

Section Append.

Lemma studio_appended_twice (st : Studio.Tables) pid a1 a2 :
  Studio.appended pid a2 (Studio.appended pid a1 st)
  = Studio.appended pid (a1 ++ a2) st.
Proof.
  unfold Studio.appended, Studio.on_ASSETS, get_or. simpl.
  rewrite lookup_insert_eq. simpl. by rewrite insert_insert_eq, app_assoc.
Qed.

Lemma studio_appended_lookup (st : Studio.Tables) pid more :
  Studio.ASSETS (Studio.appended pid more st) !! pid
  = Some (get_or pid [] (Studio.ASSETS st) ++ more).
Proof. unfold Studio.appended. simpl. apply lookup_insert_eq. Qed.

Lemma backend_appended_twice (st : Backend.Tables) pid a1 a2 :
  Backend.appended pid a2 (Backend.appended pid a1 st)
  = Backend.appended pid (a1 ++ a2) st.
Proof.
  unfold Backend.appended, Backend.on_ASSETS, get_or. simpl.
  rewrite lookup_insert_eq. simpl. by rewrite insert_insert_eq, app_assoc.
Qed.

Lemma backend_appended_lookup (st : Backend.Tables) pid more :
  Backend.ASSETS (Backend.appended pid more st) !! pid
  = Some (get_or pid [] (Backend.ASSETS st) ++ more).
Proof. unfold Backend.appended. simpl. apply lookup_insert_eq. Qed.

End Append.

(** C8.  On an existing project, two GenerateImageAssets calls leave the
    project's asset list equal to the list before, followed by the records
    of the first call, followed by the records of the second call: nothing
    earlier is removed or replaced, and the length grows by the sum of the
    two calls' counts.  Both variants. *)
Theorem C8_image_assets_accumulate :
  (forall st draws1 draws2 pid fandom1 fandom2,
     is_Some (Studio.PROJECTS st !! pid) ->
     let before := get_or pid [] (Studio.ASSETS st) in
     let a1 := Studio.picked_assets draws1 pid fandom1 in
     let a2 := Studio.picked_assets draws2 pid fandom2 in
     let c1 := Studio.ai_images draws1 (Studio.AIImagesReq.make pid fandom1) st in
     let c2 := Studio.ai_images draws2 (Studio.AIImagesReq.make pid fandom2) c1.2 in
     c1.1 = Returned (length a1) /\
     c2.1 = Returned (length a2) /\
     Studio.ASSETS c1.2 !! pid = Some (before ++ a1) /\
     Studio.ASSETS c2.2 !! pid = Some (before ++ a1 ++ a2) /\
     length (get_or pid [] (Studio.ASSETS c2.2))
       = (length before + (length a1 + length a2))%nat) /\
  (forall st pid prompts1 fandom1 prompts2 fandom2,
     is_Some (Backend.PROJECTS st !! pid) ->
     let before := get_or pid [] (Backend.ASSETS st) in
     let b1 := Backend.GenerateAIImagesBody.make pid prompts1 fandom1 in
     let b2 := Backend.GenerateAIImagesBody.make pid prompts2 fandom2 in
     let c1 := Backend.generate_ai_images b1 st in
     let c2 := Backend.generate_ai_images b2 c1.2 in
     c1.1 = Returned (Backend.image_assets b1) /\
     c2.1 = Returned (Backend.image_assets b2) /\
     Backend.ASSETS c1.2 !! pid = Some (before ++ Backend.image_assets b1) /\
     Backend.ASSETS c2.2 !! pid
       = Some (before ++ Backend.image_assets b1 ++ Backend.image_assets b2) /\
     length (get_or pid [] (Backend.ASSETS c2.2))
       = (length before + (length (Backend.image_assets b1)
                           + length (Backend.image_assets b2)))%nat).
Proof.
  split.
  - intros st draws1 draws2 pid fandom1 fandom2 Hp%contains_true. cbv zeta.
    rewrite !studio_ai_images_eq. cbn [Studio.AIImagesReq.project_id
      Studio.AIImagesReq.fandom]. rewrite Hp. cbn [fst snd].
    assert (Hp' : contains pid (Studio.PROJECTS (Studio.appended pid
              (Studio.picked_assets draws1 pid fandom1) st)) = true) by done.
    rewrite Hp'. cbv zeta. cbn [fst snd].
    rewrite studio_appended_twice.
    unfold get_or at 3. rewrite !studio_appended_lookup. cbn [default].
    split_and!; try done. unfold id. by rewrite !length_app.
  - intros st pid prompts1 fandom1 prompts2 fandom2 Hp%contains_true. cbv zeta.
    rewrite !backend_generate_ai_images_eq.
    cbn [Backend.GenerateAIImagesBody.project_id]. rewrite Hp. cbn [fst snd].
    set (a1 := Backend.image_assets _). set (a2 := Backend.image_assets _).
    assert (Hp' : contains pid (Backend.PROJECTS (Backend.appended pid a1 st)) = true)
      by done.
    rewrite Hp'. cbn [fst snd].
    rewrite backend_appended_twice.
    unfold get_or at 3. rewrite !backend_appended_lookup. cbn [default].
    split_and!; try done. unfold id. by rewrite !length_app.
Qed.

Lemma C8_image_assets_accumulate_witness :
  let st := Backend.run
      [Backend.CreateProject (Backend.CreateProjectBody.make "T" "Dragons" "auto" None None)]
      Backend.empty_tables in
  let b := Backend.GenerateAIImagesBody.make "proj_1" None (Some "game_of_thrones") in
  Backend.ASSETS (Backend.generate_ai_images b (Backend.generate_ai_images b st).2).2
    !! "proj_1"
  = Some (get_or "proj_1" [] (Backend.ASSETS st)
            ++ Backend.image_assets b ++ Backend.image_assets b).
Proof.
  destruct C8_image_assets_accumulate as (_ & H).
  refine (proj1 (proj2 (proj2 (proj2
    (H _ "proj_1" None (Some "game_of_thrones") None (Some "game_of_thrones") _))))).
  vm_compute. eauto.
Defined.

(** * The timeline of a provided script ([src/main.py]) *)

Section Timeline.
Import Studio.

Lemma segment_lines_length d per t lines :
  length (segment_lines d per t lines) = length lines.
Proof.
  revert t. induction lines as [|l ls IH]; intros t; simpl; [done|].
  by rewrite IH.
Qed.

Lemma segment_lines_texts d per t lines :
  map ScriptSegment.text (segment_lines d per t lines) = lines.
Proof.
  revert t. induction lines as [|l ls IH]; intros t; simpl; [done|].
  by rewrite IH.
Qed.

(** The [i]-th turn of the loop: [t] has advanced [i] times by [per]. *)
Lemma segment_lines_lookup d per t lines (i : nat) s :
  segment_lines d per t lines !! i = Some s ->
  exists l, lines !! i = Some l /\
    s = ScriptSegment.make (t + Z.of_nat i * per)
          (Z.min d (t + Z.of_nat i * per + per)) l.
Proof.
  revert t i. induction lines as [|l ls IH]; intros t i; simpl; [done|].
  destruct i as [|i]; simpl.
  - intros [= <-]. exists l. split; [done|]. f_equal; lia.
  - intros (l' & Hl' & ->)%IH. exists l'. split; [done|]. f_equal; lia.
Qed.

Lemma per_line_pos lines : 1 <= per_line lines.
Proof. unfold per_line. lia. Qed.

(** With at most 55 lines the windows fit: [n * per <= 55]. *)
Lemma per_line_fits lines :
  (length lines <= 55)%nat ->
  Z.of_nat (length lines) * per_line lines <= dur.
Proof.
  intros Hn. unfold per_line, dur.
  destruct (decide (length lines = 0%nat)) as [->|Hne]; [simpl; lia|].
  rewrite (Z.max_r 1 (Z.of_nat (length lines))) by lia.
  assert (1 <= 55 / Z.of_nat (length lines))
    by (apply Z.div_le_lower_bound; lia).
  rewrite Z.max_r by lia.
  apply Z.mul_div_le. lia.
Qed.

Lemma per_line_spec lines :
  lines <> [] ->
  per_line lines = Z.max 1 (dur / Z.of_nat (length lines)).
Proof.
  intros Hne. unfold per_line. destruct lines as [|l ls]; [done|].
  by rewrite (Z.max_r 1 (Z.of_nat (length (l :: ls)))) by (simpl length; lia).
Qed.

Lemma segment_ends_bounded d per t lines :
  Forall (fun s => ScriptSegment.end_ s <= d) (segment_lines d per t lines).
Proof.
  revert t. induction lines as [|l ls IH]; intros t; simpl; constructor; [|done].
  simpl. lia.
Qed.

Lemma segment_starts_nondecreasing d per t lines :
  0 <= per -> starts_nondecreasing (segment_lines d per t lines).
Proof.
  intros Hper i j s s' Hij (l & _ & ->)%segment_lines_lookup
    (l' & _ & ->)%segment_lines_lookup. simpl. nia.
Qed.

(** With at most 55 lines no window is clamped and the timeline is the
    specified one. *)
Lemma segment_lines_timeline lines :
  (length lines <= 55)%nat ->
  spec_timeline dur (segment_lines dur (per_line lines) 0 lines).
Proof.
  intros Hn. pose proof (per_line_fits lines Hn) as Hfit.
  pose proof (per_line_pos lines) as Hpos.
  unfold spec_timeline. rewrite segment_lines_length. cbv zeta.
  assert (Hin : forall (i : nat) s,
    segment_lines dur (per_line lines) 0 lines !! i = Some s ->
    (i < length lines)%nat /\
    ScriptSegment.start s = Z.of_nat i * per_line lines /\
    ScriptSegment.end_ s = Z.of_nat i * per_line lines + per_line lines).
  { intros i s Hs. pose proof (lookup_lt_Some _ _ _ Hs) as Hlt.
    rewrite segment_lines_length in Hlt.
    apply segment_lines_lookup in Hs as (l & _ & ->). simpl.
    split; [done|]. split; [lia|]. nia. }
  split_and!.
  - intros i s Hs. destruct (Hin i s Hs) as (Hlt & -> & ->).
    rewrite <- per_line_spec by (intros ->; simpl in Hlt; lia). lia.
  - intros i s s' Hs Hs'. destruct (Hin i s Hs) as (_ & _ & ->).
    destruct (Hin (S i) s' Hs') as (_ & -> & _). lia.
  - intros i s Hs. destruct (Hin i s Hs) as (_ & -> & ->). lia.
  - intros s Hs. rewrite last_lookup in Hs.
    destruct (Hin _ s Hs) as (Hlt & _ & ->).
    rewrite segment_lines_length in *. nia.
Qed.

End Timeline.

(** C2, as amended.  For every existing project and every text,
    ProvideScript returns and stores a Script holding the text and one
    segment per non-empty trimmed line, in order; every segment ends no later
    than 55 and start times never decrease.  When the text has at most 55
    such lines, every window has length [max 1 (55 / lineCount)], starts
    where the previous one ended, and has [end >= start].  The text
    "line one\nline two\nline three" gives exactly the three segments
    0-18, 18-36 and 36-54. *)
Theorem C2_provide_script_timeline (st : Studio.Tables) (pid text : string) :
  is_Some (Studio.PROJECTS st !! pid) ->
  let req := Studio.ScriptProvideReq.make pid text in
  let lines := Studio.script_lines text in
  let three := Studio.ScriptProvideReq.make pid
                 ("line one" +:+ PyStr.NL +:+ "line two" +:+ PyStr.NL +:+ "line three") in
  exists script,
    Studio.provide_script req st
      = (Returned true, Studio.on_SCRIPTS <[pid := script]> st) /\
    Studio.Script.text script = text /\
    map Studio.ScriptSegment.text (Studio.Script.segments script) = lines /\
    Forall (fun s => Studio.ScriptSegment.end_ s <= 55) (Studio.Script.segments script) /\
    starts_nondecreasing (Studio.Script.segments script) /\
    ((length lines <= 55)%nat -> spec_timeline 55 (Studio.Script.segments script)) /\
    Studio.Script.segments (Studio.provided_script three)
      = [ Studio.ScriptSegment.make 0 18 "line one";
          Studio.ScriptSegment.make 18 36 "line two";
          Studio.ScriptSegment.make 36 54 "line three" ].
Proof.
  intros Hp%contains_true. cbv zeta.
  exists (Studio.provided_script (Studio.ScriptProvideReq.make pid text)).
  rewrite studio_provide_script_eq. simpl. rewrite Hp.
  split_and!; try done.
  - apply segment_lines_texts.
  - apply segment_ends_bounded.
  - apply segment_starts_nondecreasing.
    pose proof (per_line_pos (Studio.script_lines text)). lia.
  - apply segment_lines_timeline.
Qed.

Lemma C2_provide_script_timeline_witness :
  let st := Studio.run
      [Studio.CreateProject "u1" (Studio.CreateProjectReq.parse "T" "Dragons" None None)]
      Studio.empty_tables in
  exists script,
    Studio.provide_script
      (Studio.ScriptProvideReq.make "u1" ("one" +:+ PyStr.NL +:+ "two")) st
      = (Returned true, Studio.on_SCRIPTS <["u1" := script]> st) /\
    spec_timeline 55 (Studio.Script.segments script).
Proof.
  intros st.
  destruct (C2_provide_script_timeline st "u1" ("one" +:+ PyStr.NL +:+ "two"))
    as (script & Hcall & _ & _ & _ & _ & Hspec & _).
  - vm_compute. eauto.
  - exists script. split; [exact Hcall|]. apply Hspec. vm_compute. lia.
Defined.

(** C2 as stated fails on a text of 57 lines: the loop keeps advancing the
    start while the end is clamped at 55, so the last stored segment starts
    at 56 and ends at 55. *)
Lemma C2_many_lines_counterexample :
  let st := Studio.run
      [Studio.CreateProject "u1" (Studio.CreateProjectReq.parse "T" "Dragons" None None)]
      Studio.empty_tables in
  let req := Studio.ScriptProvideReq.make "u1" (text_of_lines 57) in
  exists script,
    Studio.SCRIPTS (Studio.provide_script req st).2 !! "u1" = Some script /\
    Studio.Script.segments script !! 56%nat = Some (Studio.ScriptSegment.make 56 55 "a") /\
    ~ spec_timeline 55 (Studio.Script.segments script).
Proof.
  intros st req. exists (Studio.provided_script req).
  assert (Hseg : Studio.Script.segments (Studio.provided_script req) !! 56%nat
                 = Some (Studio.ScriptSegment.make 56 55 "a")) by (vm_compute; reflexivity).
  split_and!.
  - vm_compute. reflexivity.
  - exact Hseg.
  - intros (_ & _ & Hle & _). specialize (Hle _ _ Hseg). simpl in Hle. lia.
Qed.

(** * Blank text *)

Section BlankText.

Lemma studio_script_lines_blank text :
  PyStr.all_space text = true -> Studio.script_lines text = [].
Proof.
  intros Hblank. unfold Studio.script_lines.
  by rewrite filter_strip_blank by by apply splitlines_all_space.
Qed.

Lemma backend_stripped_pieces_blank text :
  PyStr.all_space text = true -> Backend.stripped_pieces text = [].
Proof.
  intros Hblank. unfold Backend.stripped_pieces, PyStr.split.
  rewrite filter_strip_blank; [done|].
  apply split_go_all_space; [|done]. by apply replace_all_space.
Qed.

End BlankText.

(** C4, as amended.  For every existing project and every text that is empty
    or consists of whitespace only: in [src/backend/main.py] ProvideScript
    returns and stores a script with exactly one segment, the original text;
    in [src/main.py] it stores a script with the original text and no
    segment. *)
Theorem C4_blank_text :
  (forall st pid text,
     is_Some (Backend.PROJECTS st !! pid) -> PyStr.all_space text = true ->
     let script := Backend.Script.make pid text [text] in
     Backend.provide_script (Backend.ProvideScriptBody.make pid text) st
       = (Returned script, Backend.on_SCRIPTS <[pid := script]> st)) /\
  (forall st pid text,
     is_Some (Studio.PROJECTS st !! pid) -> PyStr.all_space text = true ->
     Studio.provide_script (Studio.ScriptProvideReq.make pid text) st
       = (Returned true,
          Studio.on_SCRIPTS <[pid := Studio.Script.make pid text []]> st)).
Proof.
  split.
  - intros st pid text Hp%contains_true Hblank. cbv zeta.
    rewrite backend_provide_script_eq. simpl. rewrite Hp.
    unfold Backend.provided_segments.
    by rewrite backend_stripped_pieces_blank.
  - intros st pid text Hp%contains_true Hblank.
    rewrite studio_provide_script_eq. simpl. rewrite Hp.
    unfold Studio.provided_script. simpl.
    by rewrite studio_script_lines_blank.
Qed.

Lemma C4_blank_text_witness :
  let st := Backend.run
      [Backend.CreateProject (Backend.CreateProjectBody.make "T" "Dragons" "auto" None None)]
      Backend.empty_tables in
  let text := "  " +:+ PyStr.NL +:+ " " in
  let script := Backend.Script.make "proj_1" text [text] in
  Backend.provide_script (Backend.ProvideScriptBody.make "proj_1" text) st
    = (Returned script, Backend.on_SCRIPTS <["proj_1" := script]> st).
Proof.
  destruct C4_blank_text as (H & _).
  apply (H _ "proj_1").
  - vm_compute. eauto.
  - reflexivity.
Defined.

(** C4 as stated fails in [src/main.py]: the empty text is stored with no
    segment at all. *)
Lemma C4_empty_text_counterexample :
  let st := Studio.run
      [Studio.CreateProject "u1" (Studio.CreateProjectReq.parse "T" "Dragons" None None)]
      Studio.empty_tables in
  exists script,
    Studio.SCRIPTS (Studio.provide_script (Studio.ScriptProvideReq.make "u1" "") st).2
      !! "u1" = Some script /\
    Studio.Script.segments script = [] /\
    length (Studio.Script.segments script) <> 1%nat.
Proof.
  intros st. exists (Studio.Script.make "u1" "" []).
  split_and!; [by vm_compute|done|done].
Qed.

(** * The voice asset *)

(** C9, as amended.  On an existing project (with a stored script, in
    [src/backend/main.py]) GenerateVoiceAsset appends exactly one asset of
    kind voice with the variant's fixed URL to the project's list.  In
    [src/main.py] its metadata is voice = "female_neutral" and
    lang = "en-US"; in [src/backend/main.py] the asset has no metadata,
    whatever voice was requested. *)
Theorem C9_voice_asset :
  (forall st pid,
     is_Some (Studio.PROJECTS st !! pid) ->
     let asset := Studio.voice_asset pid in
     let call := Studio.voice (Studio.VoiceReq.make pid) st in
     call.1 = Returned true /\
     Studio.ASSETS call.2 !! pid = Some (get_or pid [] (Studio.ASSETS st) ++ [asset]) /\
     Studio.MediaAsset.kind asset = Studio.KindVoice /\
     Studio.MediaAsset.url asset = Studio.tts_url /\
     Studio.MediaAsset.meta asset !! "voice" = Some "female_neutral" /\
     Studio.MediaAsset.meta asset !! "lang" = Some "en-US") /\
  (forall st pid requested,
     is_Some (Backend.PROJECTS st !! pid) -> is_Some (Backend.SCRIPTS st !! pid) ->
     let asset := Backend.voice_asset pid in
     let call := Backend.generate_voiceover (Backend.TTSBody.make pid requested) st in
     call.1 = Returned asset /\
     Backend.ASSETS call.2 !! pid = Some (get_or pid [] (Backend.ASSETS st) ++ [asset]) /\
     Backend.MediaAsset.kind asset = "voice" /\
     Backend.MediaAsset.url asset = Backend.voice_url /\
     Backend.MediaAsset.meta asset = None).
Proof.
  split.
  - intros st pid Hp%contains_true. cbv zeta.
    rewrite studio_voice_eq. simpl. rewrite Hp. cbn [fst snd].
    rewrite studio_appended_lookup. split_and!; done.
  - intros st pid requested Hp%contains_true Hs%contains_true. cbv zeta.
    rewrite backend_generate_voiceover_eq. simpl. rewrite Hp, Hs. cbn [fst snd].
    rewrite backend_appended_lookup. split_and!; done.
Qed.

Lemma C9_voice_asset_witness :
  let st := Studio.run
      [Studio.CreateProject "u1" (Studio.CreateProjectReq.parse "T" "Dragons" None None)]
      Studio.empty_tables in
  Studio.ASSETS (Studio.voice (Studio.VoiceReq.make "u1") st).2 !! "u1"
    = Some (get_or "u1" [] (Studio.ASSETS st) ++ [Studio.voice_asset "u1"]).
Proof.
  destruct C9_voice_asset as (H & _).
  refine (proj1 (proj2 (H _ "u1" _))).
  vm_compute. eauto.
Defined.

(** C9 as stated fails in [src/backend/main.py]: a call asking for the
    voice "male_deep" appends an asset without metadata, so neither the
    requested voice nor a language tag is recorded. *)
Lemma C9_requested_voice_counterexample :
  let st := Backend.run
      [Backend.CreateProject (Backend.CreateProjectBody.make "T" "Dragons" "auto" None None);
       Backend.GenerateScript (Backend.GenerateScriptBody.make "proj_1" None)]
      Backend.empty_tables in
  let call := Backend.generate_voiceover
                (Backend.TTSBody.make "proj_1" (Some "male_deep")) st in
  exists asset,
    call.1 = Returned asset /\
    Backend.ASSETS call.2 !! "proj_1" = Some [asset] /\
    Backend.MediaAsset.meta asset = None /\
    ~ (exists meta, Backend.MediaAsset.meta asset = Some meta /\
                    meta !! "voice" = Some "male_deep").
Proof.
  intros st call. exists (Backend.voice_asset "proj_1").
  split_and!; [by vm_compute..|done|].
  by intros (meta & Hmeta & _).
Qed.

(** * Sampling without replacement *)

Section Sample.
Context {A : Type}.
Implicit Types (pool : list A) (draws : list nat).

(** One pick: the chosen element leaves the pool, the last element takes
    its place. *)
Lemma pick_permutation pool (j : nat) x y :
  pool !! j = Some x -> pool !! (length pool - 1)%nat = Some y ->
  pool ≡ₚ x :: take (length pool - 1) (<[j := y]> pool).
Proof.
  intros Hx Hy. pose proof (lookup_lt_Some _ _ _ Hx) as Hj.
  set (n := (length pool - 1)%nat) in *.
  assert (Hsplit : pool = take n pool ++ [y]).
  { rewrite <- (take_drop n pool) at 1. f_equal.
    rewrite (drop_S _ _ _ Hy). f_equal. apply drop_ge. lia. }
  destruct (decide (j = n)) as [->|Hne].
  - assert (x = y) as -> by congruence.
    rewrite take_insert_ge by lia.
    rewrite Hsplit at 1. by rewrite Permutation_app_comm.
  - assert (Hjn : (j < n)%nat) by lia.
    rewrite take_insert_lt by lia.
    assert (Hx' : take n pool !! j = Some x) by by rewrite lookup_take_lt.
    rewrite Hsplit at 1.
    rewrite insert_take_drop by (rewrite length_take; lia).
    rewrite <- (take_drop_middle _ _ _ Hx') at 1.
    rewrite <- !app_assoc. simpl.
    rewrite <- Permutation_middle. constructor.
    apply Permutation_app_head.
    rewrite (Permutation_app_comm _ [y]). done.
Qed.

(** [k] picks are [k] elements of the pool, each position used once. *)
Lemma sample_go_permutation k draws pool :
  (k <= length pool)%nat ->
  length (sample_go draws pool k) = k /\
  exists rest, pool ≡ₚ sample_go draws pool k ++ rest.
Proof.
  revert draws pool. induction k as [|k IH]; intros draws pool Hk; simpl.
  - split; [done|]. by exists pool.
  - set (m := length pool) in *.
    assert (Hj : (hd 0%nat draws mod m < m)%nat) by (apply Nat.mod_upper_bound; lia).
    destruct (lookup_lt_is_Some_2 pool _ Hj) as [x Hx].
    destruct (lookup_lt_is_Some_2 pool (m - 1)) as [y Hy]; [lia|].
    rewrite Hx, Hy.
    destruct (IH (tl draws) (take (m - 1) (<[(hd 0 draws mod m)%nat := y]> pool)))
      as (Hlen & rest & Hperm).
    { rewrite length_take, length_insert. lia. }
    split; [simpl; by rewrite Hlen|].
    exists rest. etrans; [exact (pick_permutation pool _ x y Hx Hy)|].
    simpl. by constructor.
Qed.

(** Sampling the whole population is a reordering of it. *)
Lemma sample_all_permutation draws pool :
  sample draws pool (length pool) ≡ₚ pool.
Proof.
  destruct (sample_go_permutation (length pool) draws pool) as (Hlen & rest & Hperm);
    [done|].
  pose proof (Permutation_length Hperm) as Hl.
  rewrite length_app, Hlen in Hl.
  destruct rest; [|simpl in Hl; lia].
  unfold sample. by rewrite app_nil_r in Hperm.
Qed.

End Sample.

(** * Image assets *)

Section Images.

Lemma zip_fst_take {A B} (l : list A) (k : list B) :
  (zip l k).*1 = take (length k) l.
Proof.
  revert k. induction l as [|x l IH]; intros [|y k]; simpl; try done.
  by rewrite IH.
Qed.

Lemma zip_snd_take {A B} (l : list A) (k : list B) :
  (zip l k).*2 = take (length l) k.
Proof.
  revert k. induction l as [|x l IH]; intros [|y k]; simpl; try done.
  by rewrite IH.
Qed.

Lemma resolve_fandom_lengths fandom :
  length (Studio.resolve_fandom fandom).1 = 3%nat /\
  length (Studio.resolve_fandom fandom).2 = 3%nat.
Proof. unfold Studio.resolve_fandom. by repeat case_decide. Qed.

Lemma studio_picked fandom draws :
  let pool := (Studio.resolve_fandom fandom).1 in
  length (sample draws pool (Nat.min 3 (length pool))) = 3%nat /\
  sample draws pool (Nat.min 3 (length pool)) ≡ₚ pool.
Proof.
  cbv zeta. destruct (resolve_fandom_lengths fandom) as [Hl _].
  rewrite Hl. change (Nat.min 3 3) with 3%nat.
  pose proof (sample_all_permutation draws (Studio.resolve_fandom fandom).1) as Hperm.
  rewrite Hl in Hperm. split; [|done].
  by rewrite (Permutation_length Hperm).
Qed.

Lemma studio_picked_assets_urls draws pid fandom :
  map Studio.MediaAsset.url (Studio.picked_assets draws pid fandom)
    ≡ₚ (Studio.resolve_fandom fandom).1.
Proof.
  unfold Studio.picked_assets.
  destruct (studio_picked fandom draws) as [Hlen Hperm].
  destruct (resolve_fandom_lengths fandom) as [_ Hprompts].
  destruct (Studio.resolve_fandom fandom) as [pool prompts]. simpl in *.
  rewrite map_map. simpl.
  change (map (fun up : string * string => up.1) ?l) with (l.*1).
  rewrite zip_fst_take, Hprompts, <- Hlen, firstn_all. exact Hperm.
Qed.

Lemma studio_picked_assets_prompts draws pid fandom :
  map (fun a => Studio.MediaAsset.meta a !! "prompt")
      (Studio.picked_assets draws pid fandom)
    = map Some (Studio.resolve_fandom fandom).2.
Proof.
  unfold Studio.picked_assets.
  destruct (studio_picked fandom draws) as [Hlen _].
  destruct (resolve_fandom_lengths fandom) as [_ Hprompts].
  destruct (Studio.resolve_fandom fandom) as [pool prompts]. simpl in *.
  rewrite map_map. simpl.
  erewrite map_ext; [|intros up; apply lookup_insert_eq].
  rewrite <- (map_map snd Some).
  change (map snd ?l) with (l.*2).
  by rewrite zip_snd_take, Hlen, <- Hprompts, firstn_all.
Qed.

Lemma studio_picked_assets_length draws pid fandom :
  length (Studio.picked_assets draws pid fandom) = 3%nat.
Proof.
  rewrite <- (length_map Studio.MediaAsset.url).
  rewrite (Permutation_length (studio_picked_assets_urls draws pid fandom)).
  apply resolve_fandom_lengths.
Qed.

Lemma studio_picked_assets_kind draws pid fandom :
  Forall (fun a => Studio.MediaAsset.kind a = Studio.KindImage)
    (Studio.picked_assets draws pid fandom).
Proof.
  unfold Studio.picked_assets. destruct (Studio.resolve_fandom fandom).
  apply list.Forall_forall. by intros a (up & -> & _)%list_elem_of_fmap.
Qed.

(** The three pools share no URL. *)
Lemma HP_GIFS_apart u :
  u ∈ Studio.HP_GIFS -> (u ∉ Studio.GOT_GIFS) /\ (u ∉ Studio.GENERIC_GIFS).
Proof.
  unfold Studio.HP_GIFS, Studio.GOT_GIFS, Studio.GENERIC_GIFS.
  rewrite !elem_of_cons, !elem_of_nil.
  intros [->|[->|[->|[]]]]; split; intros H; by repeat destruct H as [H|H].
Qed.

End Images.

(** C5, as amended.  On an existing project one GenerateImageAssets call
    appends image assets whose URLs are paired by position with the prompts.
    In [src/main.py] exactly 3 are appended: their URLs are the three URLs of
    the pool resolved from the requested fandom, in some order (for
    "harry_potter" the Harry-Potter pool, and no URL of the other two
    pools), with that fandom's three prompts in order.  In
    [src/backend/main.py] there is one pool for every fandom: the call
    appends one asset per prompt, at most 3, with the first URLs of that
    pool in order, the prompts being the caller's list when it is given and
    non-empty and the three fandom-derived prompts otherwise (then exactly
    3 assets). *)
Theorem C5_image_assets :
  (forall st draws pid fandom,
     is_Some (Studio.PROJECTS st !! pid) ->
     let pool := (Studio.resolve_fandom fandom).1 in
     let prompts := (Studio.resolve_fandom fandom).2 in
     let assets := Studio.picked_assets draws pid fandom in
     let call := Studio.ai_images draws (Studio.AIImagesReq.make pid fandom) st in
     call.1 = Returned 3%nat /\
     Studio.ASSETS call.2 !! pid = Some (get_or pid [] (Studio.ASSETS st) ++ assets) /\
     length assets = 3%nat /\
     Forall (fun a => Studio.MediaAsset.kind a = Studio.KindImage) assets /\
     map Studio.MediaAsset.url assets ≡ₚ pool /\
     map (fun a => Studio.MediaAsset.meta a !! "prompt") assets = map Some prompts /\
     (fandom = "harry_potter" ->
        pool = Studio.HP_GIFS /\
        forall a, a ∈ assets ->
          Studio.MediaAsset.url a ∈ Studio.HP_GIFS /\
          (Studio.MediaAsset.url a ∉ Studio.GOT_GIFS) /\
          (Studio.MediaAsset.url a ∉ Studio.GENERIC_GIFS))) /\
  (forall st pid prompts fandom,
     is_Some (Backend.PROJECTS st !! pid) ->
     let body := Backend.GenerateAIImagesBody.make pid prompts fandom in
     let used := Backend.list_or prompts
                   (Backend.default_prompts (Backend.str_or fandom "generic")) in
     let assets := Backend.image_assets body in
     let call := Backend.generate_ai_images body st in
     call.1 = Returned assets /\
     Backend.ASSETS call.2 !! pid = Some (get_or pid [] (Backend.ASSETS st) ++ assets) /\
     length assets = Nat.min 3 (length used) /\
     Forall (fun a => Backend.MediaAsset.kind a = "image") assets /\
     map Backend.MediaAsset.url assets = take (length used) Backend.sample_gifs /\
     map Backend.MediaAsset.meta assets
       = map (fun p => Some (<["prompt" := p]> ∅)) (take 3 used) /\
     (prompts = None -> length assets = 3%nat)).
Proof.
  split.
  - intros st draws pid fandom Hp%contains_true. cbv zeta.
    rewrite studio_ai_images_eq.
    cbn [Studio.AIImagesReq.project_id Studio.AIImagesReq.fandom].
    rewrite Hp. cbv zeta. cbn [fst snd].
    rewrite studio_appended_lookup, studio_picked_assets_length.
    split_and!; try done.
    + apply studio_picked_assets_kind.
    + apply studio_picked_assets_urls.
    + apply studio_picked_assets_prompts.
    + intros ->. split; [done|]. intros a Ha.
      assert (Hu : Studio.MediaAsset.url a ∈ Studio.HP_GIFS).
      { rewrite <- (studio_picked_assets_urls draws pid "harry_potter").
        by apply list_elem_of_fmap_2. }
      split; [done|]. by apply HP_GIFS_apart.
  - intros st pid prompts fandom Hp%contains_true. cbv zeta.
    rewrite backend_generate_ai_images_eq.
    cbn [Backend.GenerateAIImagesBody.project_id]. rewrite Hp. cbn [fst snd].
    rewrite backend_appended_lookup.
    unfold Backend.image_assets.
    cbn [Backend.GenerateAIImagesBody.project_id Backend.GenerateAIImagesBody.prompts
         Backend.GenerateAIImagesBody.fandom].
    set (used := Backend.list_or prompts _).
    split_and!; try done.
    + by rewrite length_map, length_zip_with.
    + apply list.Forall_forall. by intros a (up & -> & _)%list_elem_of_fmap.
    + rewrite map_map. exact (zip_fst_take Backend.sample_gifs used).
    + rewrite map_map.
      transitivity (map (fun p : string => Some (<["prompt" := p]> (∅ : gmap string string)))
                      ((zip Backend.sample_gifs used).*2));
        [|by rewrite zip_snd_take].
      by rewrite <- list_fmap_compose.
    + intros ->. by rewrite length_map, length_zip_with.
Qed.

Lemma C5_image_assets_witness :
  let st := Studio.run
      [Studio.CreateProject "u1" (Studio.CreateProjectReq.parse "T" "Dragons" None None)]
      Studio.empty_tables in
  let assets := Studio.picked_assets [2%nat; 0%nat; 5%nat] "u1" "harry_potter" in
  map Studio.MediaAsset.url assets ≡ₚ Studio.HP_GIFS /\
  forall a, a ∈ assets ->
    Studio.MediaAsset.url a ∈ Studio.HP_GIFS /\
    (Studio.MediaAsset.url a ∉ Studio.GOT_GIFS) /\
    (Studio.MediaAsset.url a ∉ Studio.GENERIC_GIFS).
Proof.
  intros st assets.
  destruct C5_image_assets as (H & _).
  destruct (H st [2%nat; 0%nat; 5%nat] "u1" "harry_potter")
    as (_ & _ & _ & _ & Hperm & _ & Hhp).
  - vm_compute. eauto.
  - split; [exact Hperm|]. exact (proj2 (Hhp eq_refl)).
Defined.

(** C5 as stated fails in [src/backend/main.py]: with one prompt supplied
    the call appends one asset, not three, and for fandom "harry_potter" its
    URL is the first of the single, fandom-independent pool. *)
Lemma C5_one_prompt_counterexample :
  let st := Backend.run
      [Backend.CreateProject (Backend.CreateProjectBody.make "T" "Dragons" "auto" None None)]
      Backend.empty_tables in
  let call := Backend.generate_ai_images
                (Backend.GenerateAIImagesBody.make "proj_1" (Some ["a dragon"])
                   (Some "harry_potter")) st in
  exists asset,
    call.1 = Returned [asset] /\
    Backend.ASSETS call.2 !! "proj_1" = Some [asset] /\
    Backend.MediaAsset.url asset
      = "https://media.tenor.com/9v0Yw6Z0v2cAAAAC/magic-loop.gif" /\
    length [asset] <> Nat.min 3 (length Backend.sample_gifs).
Proof.
  intros st call.
  exists (Backend.image_asset "proj_1"
            ("https://media.tenor.com/9v0Yw6Z0v2cAAAAC/magic-loop.gif", "a dragon")).
  split_and!; [by vm_compute..|done|by vm_compute].
Qed.

(** * Project identifiers *)

Section BackendIds.
Import Backend.
Implicit Types (st : Tables) (pid : string).

(** Only [create_project] writes [PROJECTS]. *)
Lemma backend_exec_PROJECTS r st :
  PROJECTS (exec r st) =
    match r with
    | CreateProject body =>
        <[next_pid (PROJECTS st) :=
            Project.new (CreateProjectBody.title body) (CreateProjectBody.topic body)
              (CreateProjectBody.mode body) (CreateProjectBody.brand_name body)]>
          (PROJECTS st)
    | _ => PROJECTS st
    end.
Proof.
  destruct r as [|body|body|body|body|body|pid]; cbn [exec]; try done.
  - rewrite backend_generate_script_eq. by destruct (PROJECTS st !! _).
  - rewrite backend_provide_script_eq. by destruct (contains _ _).
  - rewrite backend_generate_ai_images_eq. by destruct (contains _ _).
  - rewrite backend_generate_voiceover_eq.
    destruct (contains _ (PROJECTS st)); [|done]. by destruct (contains _ (SCRIPTS st)).
  - rewrite backend_get_project_eq. by destruct (PROJECTS st !! pid).
Qed.

Lemma next_pid_inj (n k : nat) :
  "proj_" +:+ pretty n = "proj_" +:+ pretty k -> n = k.
Proof. intros H%(inj (String.app "proj_")). by apply (inj pretty) in H. Qed.

(** The next identifier is not yet a key. *)
Lemma backend_next_pid_fresh st :
  backend_numbered st -> PROJECTS st !! next_pid (PROJECTS st) = None.
Proof.
  intros Hnum. apply eq_None_not_Some. intros (k & Hk & Heq)%Hnum.
  unfold next_pid in Heq. apply next_pid_inj in Heq. lia.
Qed.

Lemma backend_numbered_empty : backend_numbered empty_tables.
Proof.
  intros pid. simpl. rewrite lookup_empty, map_size_empty. split.
  - by intros [? ?].
  - intros (k & Hk & _). lia.
Qed.

Lemma backend_exec_numbered r st :
  backend_numbered st -> backend_numbered (exec r st).
Proof.
  intros Hnum pid. rewrite backend_exec_PROJECTS.
  destruct r as [|body|body|body|body|body|pid']; try apply Hnum.
  pose proof (backend_next_pid_fresh st Hnum) as Hfresh.
  rewrite map_size_insert_None by done.
  rewrite lookup_insert_is_Some. split.
  - intros [<-|[Hne (k & Hk & ->)%Hnum]].
    + exists (size (PROJECTS st) + 1)%nat. split; [lia|done].
    + exists k. split; [lia|done].
  - intros (k & Hk & ->).
    destruct (decide (k = size (PROJECTS st) + 1)%nat) as [->|Hne]; [by left|].
    right. split.
    + unfold next_pid. intros Heq%next_pid_inj. lia.
    + apply Hnum. exists k. split; [lia|done].
Qed.

Lemma backend_run_numbered rs st :
  backend_numbered st -> backend_numbered (run rs st).
Proof.
  revert st. induction rs as [|r rs IH]; intros st Hnum; simpl; [done|].
  by apply IH, backend_exec_numbered.
Qed.




End BackendIds.

Section StudioIds.
Import Studio.
Implicit Types (st : Tables) (pid : string).

(** Only [create_project] writes [PROJECTS], under the drawn UUID. *)
Lemma studio_exec_PROJECTS r st :
  PROJECTS (exec r st) =
    match r with
    | CreateProject u req =>
        match Project.new (CreateProjectReq.title req) (CreateProjectReq.topic req)
                (CreateProjectReq.mode req) (CreateProjectReq.fandom req) with
        | Some project => <[u := project]> (PROJECTS st)
        | None => PROJECTS st
        end
    | _ => PROJECTS st
    end.
Proof.
  destruct r as [|u req|pid|req|req|draws req|req]; cbn [exec]; try done.
  - rewrite studio_create_project_eq. by destruct (Project.new _ _ _ _).
  - rewrite studio_get_project_eq. by destruct (PROJECTS st !! pid).
  - rewrite studio_generate_script_eq. by destruct (contains _ _).
  - rewrite studio_provide_script_eq. by destruct (contains _ _).
  - rewrite studio_ai_images_eq. by destruct (contains _ _).
  - rewrite studio_voice_eq. by destruct (contains _ _).
Qed.

(** Every key of [PROJECTS] was there at the start or is a drawn UUID. *)
Lemma studio_run_keys rs st pid :
  is_Some (PROJECTS (run rs st) !! pid) ->
  is_Some (PROJECTS st !! pid) \/ pid ∈ uuids rs.
Proof.
  revert st. induction rs as [|r rs IH]; intros st; simpl; [by left|].
  intros [Hp|Hin]%IH.
  - rewrite studio_exec_PROJECTS in Hp.
    destruct r as [|u req| | | | |]; auto.
    destruct (Project.new _ _ _ _); [|by left].
    apply lookup_insert_is_Some in Hp as [<-|[_ Hp]]; [|by left].
    right. apply elem_of_cons. by left.
  - right. destruct r; try done. apply elem_of_cons. by right.
Qed.


Lemma studio_new_defaults title topic mode fandom m f :
  Mode_validate mode = Some m -> Fandom_validate fandom = Some f ->
  Project.new title topic mode fandom = Some (studio_project title topic m f).
Proof. intros Hm Hf. unfold Project.new. by rewrite Hm, Hf. Qed.

End StudioIds.



(** * What one request does to the tables *)

Section ExecShape.

(** A request of [src/main.py] leaves the tables alone, or stores a project
    under its UUID, or stores a script, or appends assets, the last two only
    for a known project. *)
Lemma studio_exec_shape (r : Studio.request) (st : Studio.Tables) :
  Studio.exec r st = st \/
  (exists u project, studio_target r = Some u /\
     Studio.exec r st = Studio.on_PROJECTS <[u := project]> st) \/
  (exists pid script, studio_target r = Some pid /\
     is_Some (Studio.PROJECTS st !! pid) /\
     Studio.exec r st = Studio.on_SCRIPTS <[pid := script]> st) \/
  (exists pid more, studio_target r = Some pid /\
     is_Some (Studio.PROJECTS st !! pid) /\
     Studio.exec r st = Studio.appended pid more st).
Proof.
  destruct r as [|u req|pid|req|req|draws req|req]; cbn [Studio.exec studio_target].
  - by left.
  - rewrite studio_create_project_eq.
    destruct (Studio.Project.new _ _ _ _) as [project|]; [|by left].
    right; left. by exists u, project.
  - left. rewrite studio_get_project_eq. by destruct (Studio.PROJECTS st !! pid).
  - rewrite studio_generate_script_eq.
    destruct (contains _ _) eqn:K; [|by left].
    right; right; left. apply contains_true in K. eauto.
  - rewrite studio_provide_script_eq.
    destruct (contains _ _) eqn:K; [|by left].
    right; right; left. apply contains_true in K. eauto.
  - rewrite studio_ai_images_eq.
    destruct (contains _ _) eqn:K; [|by left].
    right; right; right. apply contains_true in K. eauto.
  - rewrite studio_voice_eq.
    destruct (contains _ _) eqn:K; [|by left].
    right; right; right. apply contains_true in K. eauto.
Qed.

(** The same for [src/backend/main.py]; a project is stored under the next
    identifier. *)
Lemma backend_exec_shape (r : Backend.request) (st : Backend.Tables) :
  Backend.exec r st = st \/
  (exists project, backend_target r st = Some (Backend.next_pid (Backend.PROJECTS st)) /\
     Backend.exec r st
       = Backend.on_PROJECTS <[Backend.next_pid (Backend.PROJECTS st) := project]> st) \/
  (exists pid script, backend_target r st = Some pid /\
     is_Some (Backend.PROJECTS st !! pid) /\
     Backend.exec r st = Backend.on_SCRIPTS <[pid := script]> st) \/
  (exists pid more, backend_target r st = Some pid /\
     is_Some (Backend.PROJECTS st !! pid) /\
     Backend.exec r st = Backend.appended pid more st).
Proof.
  destruct r as [|body|body|body|body|body|pid]; cbn [Backend.exec backend_target].
  - by left.
  - right; left. rewrite backend_create_project_eq. eauto.
  - rewrite backend_generate_script_eq.
    destruct (Backend.PROJECTS st !! _) eqn:K; [|by left].
    right; right; left. eexists _, _. split; [done|]. split; [by rewrite K|done].
  - rewrite backend_provide_script_eq.
    destruct (contains _ _) eqn:K; [|by left].
    right; right; left. apply contains_true in K. eauto.
  - rewrite backend_generate_ai_images_eq.
    destruct (contains _ _) eqn:K; [|by left].
    right; right; right. apply contains_true in K. eauto.
  - rewrite backend_generate_voiceover_eq.
    destruct (contains _ (Backend.PROJECTS st)) eqn:K; [|by left].
    destruct (contains _ (Backend.SCRIPTS st)) eqn:K'; [|by left].
    right; right; right. apply contains_true in K. eauto.
  - left. rewrite backend_get_project_eq. by destruct (Backend.PROJECTS st !! pid).
Qed.

End ExecShape.

(** * Failure is atomic *)

(** X1.  In both variants a request whose handler raises (the 404, the 400,
    or the validation error of [Project(...)]) leaves all four tables as
    they were. *)
Theorem failed_request_changes_nothing :
  (forall r st, studio_returns r st = false -> Studio.exec r st = st) /\
  (forall r st, backend_returns r st = false -> Backend.exec r st = st).
Proof.
  split.
  - intros r st. destruct r as [|u req|pid|req|req|draws req|req];
      cbn [Studio.exec studio_returns].
    + done.
    + rewrite studio_create_project_eq. by destruct (Studio.Project.new _ _ _ _).
    + rewrite studio_get_project_eq. by destruct (Studio.PROJECTS st !! pid).
    + rewrite studio_generate_script_eq. by destruct (contains _ _).
    + rewrite studio_provide_script_eq. by destruct (contains _ _).
    + rewrite studio_ai_images_eq. by destruct (contains _ _).
    + rewrite studio_voice_eq. by destruct (contains _ _).
  - intros r st. destruct r as [|body|body|body|body|body|pid];
      cbn [Backend.exec backend_returns].
    + done.
    + by rewrite backend_create_project_eq.
    + rewrite backend_generate_script_eq. by destruct (Backend.PROJECTS st !! _).
    + rewrite backend_provide_script_eq. by destruct (contains _ _).
    + rewrite backend_generate_ai_images_eq. by destruct (contains _ _).
    + rewrite backend_generate_voiceover_eq.
      destruct (contains _ (Backend.PROJECTS st)); [|done].
      by destruct (contains _ (Backend.SCRIPTS st)).
    + rewrite backend_get_project_eq. by destruct (Backend.PROJECTS st !! pid).
Qed.

Lemma failed_request_changes_nothing_witness :
  let r := Studio.CreateProject "u1"
             (Studio.CreateProjectReq.parse "T" "Dragons" (Some "manual") None) in
  studio_returns r Studio.empty_tables = false /\
  Studio.exec r Studio.empty_tables = Studio.empty_tables.
Proof.
  intros r. split; [reflexivity|].
  apply (proj1 failed_request_changes_nothing). reflexivity.
Defined.

(** * Projects do not interfere *)

Section Isolation.

Lemma studio_view_local (st st' : Studio.Tables) q :
  Studio.PROJECTS st' !! q = Studio.PROJECTS st !! q ->
  Studio.SCRIPTS st' !! q = Studio.SCRIPTS st !! q ->
  Studio.ASSETS st' !! q = Studio.ASSETS st !! q ->
  Studio.RENDERS st' !! q = Studio.RENDERS st !! q ->
  (Studio.get_project q st').1 = (Studio.get_project q st).1.
Proof.
  intros Hp Hs Ha Hr. rewrite !studio_get_project_eq. unfold get_or.
  rewrite Hp, Hs, Ha, Hr. by destruct (Studio.PROJECTS st !! q).
Qed.

Lemma backend_view_local (st st' : Backend.Tables) q :
  Backend.PROJECTS st' !! q = Backend.PROJECTS st !! q ->
  Backend.SCRIPTS st' !! q = Backend.SCRIPTS st !! q ->
  Backend.ASSETS st' !! q = Backend.ASSETS st !! q ->
  Backend.RENDERS st' !! q = Backend.RENDERS st !! q ->
  (Backend.get_project q st').1 = (Backend.get_project q st).1.
Proof.
  intros Hp Hs Ha Hr. rewrite !backend_get_project_eq. unfold get_or.
  rewrite Hp, Hs, Ha, Hr. by destruct (Backend.PROJECTS st !! q).
Qed.

End Isolation.

(** X2.  In both variants a request about one project id (in the backend, a
    creation counts as being about the id it hands out) does not change what
    GetProject answers for any other id. *)
Theorem other_projects_untouched :
  (forall r st q, studio_target r <> Some q ->
     (Studio.get_project q (Studio.exec r st)).1 = (Studio.get_project q st).1) /\
  (forall r st q, backend_target r st <> Some q ->
     (Backend.get_project q (Backend.exec r st)).1 = (Backend.get_project q st).1).
Proof.
  split.
  - intros r st q Hq.
    destruct (studio_exec_shape r st)
      as [->|[(u & p & Ht & ->)|[(pid & s & Ht & _ & ->)|(pid & more & Ht & _ & ->)]]];
      [done|apply studio_view_local; simpl; try done..];
      apply lookup_insert_ne; congruence.
  - intros r st q Hq.
    destruct (backend_exec_shape r st)
      as [->|[(p & Ht & ->)|[(pid & s & Ht & _ & ->)|(pid & more & Ht & _ & ->)]]];
      [done|apply backend_view_local; simpl; try done..];
      apply lookup_insert_ne; congruence.
Qed.

Lemma other_projects_untouched_witness :
  let st := Backend.run
      [Backend.CreateProject (Backend.CreateProjectBody.make "T" "Dragons" "auto" None None);
       Backend.CreateProject (Backend.CreateProjectBody.make "S" "Wolves" "step" None None)]
      Backend.empty_tables in
  let r := Backend.ProvideScript (Backend.ProvideScriptBody.make "proj_2" "howl") in
  (Backend.get_project "proj_1" (Backend.exec r st)).1
  = (Backend.get_project "proj_1" st).1.
Proof.
  intros st r. apply (proj2 other_projects_untouched). by vm_compute.
Defined.

(** * Nothing is ever deleted *)

Section Persistence.

Lemma get_or_appended_prefix_studio (st : Studio.Tables) pid more q :
  get_or q [] (Studio.ASSETS st)
    `prefix_of` get_or q [] (Studio.ASSETS (Studio.appended pid more st)).
Proof.
  unfold Studio.appended, get_or. simpl. destruct (decide (pid = q)) as [->|Hne].
  - rewrite lookup_insert_eq. simpl. by apply prefix_app_r.
  - by rewrite lookup_insert_ne.
Qed.

Lemma get_or_appended_prefix_backend (st : Backend.Tables) pid more q :
  get_or q [] (Backend.ASSETS st)
    `prefix_of` get_or q [] (Backend.ASSETS (Backend.appended pid more st)).
Proof.
  unfold Backend.appended, get_or. simpl. destruct (decide (pid = q)) as [->|Hne].
  - rewrite lookup_insert_eq. simpl. by apply prefix_app_r.
  - by rewrite lookup_insert_ne.
Qed.

Lemma studio_exec_grows r st q :
  get_or q [] (Studio.ASSETS st) `prefix_of` get_or q [] (Studio.ASSETS (Studio.exec r st)) /\
  (is_Some (Studio.SCRIPTS st !! q) -> is_Some (Studio.SCRIPTS (Studio.exec r st) !! q)).
Proof.
  destruct (studio_exec_shape r st)
    as [->|[(u & p & _ & ->)|[(pid & s & _ & _ & ->)|(pid & more & _ & _ & ->)]]];
    simpl; try done.
  - split; [done|]. intros Hq. apply lookup_insert_is_Some'. by right.
  - split; [|done]. apply get_or_appended_prefix_studio.
Qed.

Lemma backend_exec_grows r st q :
  get_or q [] (Backend.ASSETS st) `prefix_of` get_or q [] (Backend.ASSETS (Backend.exec r st)) /\
  (is_Some (Backend.SCRIPTS st !! q) -> is_Some (Backend.SCRIPTS (Backend.exec r st) !! q)).
Proof.
  destruct (backend_exec_shape r st)
    as [->|[(p & _ & ->)|[(pid & s & _ & _ & ->)|(pid & more & _ & _ & ->)]]];
    simpl; try done.
  - split; [done|]. intros Hq. apply lookup_insert_is_Some'. by right.
  - split; [|done]. apply get_or_appended_prefix_backend.
Qed.

Lemma studio_exec_RENDERS r st : Studio.RENDERS (Studio.exec r st) = Studio.RENDERS st.
Proof.
  by destruct (studio_exec_shape r st)
    as [->|[(u & p & _ & ->)|[(pid & s & _ & _ & ->)|(pid & more & _ & _ & ->)]]].
Qed.

Lemma backend_exec_RENDERS r st : Backend.RENDERS (Backend.exec r st) = Backend.RENDERS st.
Proof.
  by destruct (backend_exec_shape r st)
    as [->|[(p & _ & ->)|[(pid & s & _ & _ & ->)|(pid & more & _ & _ & ->)]]].
Qed.

(** A stored project of [src/backend/main.py] keeps its record through one
    request: a creation writes under a fresh key. *)
Lemma backend_exec_keeps_record r st pid project :
  backend_numbered st ->
  Backend.PROJECTS st !! pid = Some project ->
  Backend.PROJECTS (Backend.exec r st) !! pid = Some project.
Proof.
  intros Hnum Hp. rewrite backend_exec_PROJECTS.
  destruct r; try done.
  rewrite lookup_insert_ne; [done|]. intros <-.
  by rewrite (backend_next_pid_fresh st Hnum) in Hp.
Qed.

End Persistence.

(** X3.  A stored project is never changed or removed.  In
    [src/backend/main.py] this holds from every reachable state through any
    further requests; in [src/main.py] it holds through any requests whose
    UUID draws differ from the project's id. *)
Theorem project_record_is_permanent :
  (forall rs st pid project,
     Backend.reachable st ->
     Backend.PROJECTS st !! pid = Some project ->
     Backend.PROJECTS (Backend.run rs st) !! pid = Some project) /\
  (forall rs st pid project,
     pid ∉ Studio.uuids rs ->
     Studio.PROJECTS st !! pid = Some project ->
     Studio.PROJECTS (Studio.run rs st) !! pid = Some project).
Proof.
  split.
  - intros rs st pid project [rs0 ->].
    assert (Hnum : backend_numbered (Backend.run rs0 Backend.empty_tables))
      by apply backend_run_numbered, backend_numbered_empty.
    revert Hnum. generalize (Backend.run rs0 Backend.empty_tables). clear rs0.
    induction rs as [|r rs IH]; intros st Hnum Hp; simpl; [done|].
    apply IH; [by apply backend_exec_numbered|by apply backend_exec_keeps_record].
  - intros rs. induction rs as [|r rs IH]; intros st pid project Hnot Hp; simpl; [done|].
    apply IH.
    + intros Hin. apply Hnot. destruct r; simpl; try done. apply elem_of_cons. by right.
    + rewrite studio_exec_PROJECTS. destruct r as [|u req| | | | |]; try done.
      destruct (Studio.Project.new _ _ _ _); [|done].
      rewrite lookup_insert_ne; [done|]. intros ->. apply Hnot.
      simpl. apply elem_of_cons. by left.
Qed.

Lemma project_record_is_permanent_witness :
  let st := Backend.run
      [Backend.CreateProject (Backend.CreateProjectBody.make "T" "Dragons" "auto" None None)]
      Backend.empty_tables in
  let rs := [Backend.CreateProject (Backend.CreateProjectBody.make "S" "Wolves" "step" None None);
             Backend.GenerateScript (Backend.GenerateScriptBody.make "proj_1" None)] in
  Backend.PROJECTS (Backend.run rs st) !! "proj_1"
  = Some (backend_project "T" "Dragons" "auto" None).
Proof.
  intros st rs. apply (proj1 project_record_is_permanent).
  - eexists. reflexivity.
  - by vm_compute.
Defined.

(** X4.  In [src/backend/main.py], after any sequence of requests from the
    empty tables, the number of stored projects is the number of
    CreateProject requests, and the identifiers handed out are proj_1,
    proj_2, ... in that order. *)
Theorem backend_ids_are_sequential (rs : list Backend.request) :
  size (Backend.PROJECTS (Backend.run rs Backend.empty_tables)) = backend_creations rs /\
  Backend.issued rs Backend.empty_tables
    = map (fun k : nat => "proj_" +:+ pretty k) (seq 1 (backend_creations rs)).
Proof.
  assert (Hgen : forall rs st, backend_numbered st ->
    size (Backend.PROJECTS (Backend.run rs st))
      = (size (Backend.PROJECTS st) + backend_creations rs)%nat /\
    Backend.issued rs st
      = map (fun k : nat => "proj_" +:+ pretty k)
          (seq (S (size (Backend.PROJECTS st))) (backend_creations rs))).
  { clear rs. intros rs. induction rs as [|r rs IH]; intros st Hnum.
    - simpl. split; [lia|done].
    - destruct (IH (Backend.exec r st)) as [Hsize Hissued];
        [by apply backend_exec_numbered|].
      cbn [Backend.run Backend.issued]. rewrite Hsize, Hissued.
      rewrite backend_exec_PROJECTS.
      destruct r as [|body| | | | |]; cbn [Backend.issued_by option_list backend_creations];
        try (split; [done|by rewrite app_nil_l]).
      rewrite map_size_insert_None by by apply backend_next_pid_fresh.
      rewrite backend_create_project_eq. cbv zeta. cbn [fst option_list].
      split; [lia|]. cbn [seq map app]. unfold Backend.next_pid.
      by rewrite Nat.add_1_r. }
  destruct (Hgen rs Backend.empty_tables backend_numbered_empty) as [Hsize Hissued].
  simpl in Hsize, Hissued. rewrite map_size_empty in Hsize, Hissued. by split.
Qed.

(** X5.  In both variants, through any sequence of requests, the asset list
    of every project id only grows at its end (the list before is a prefix
    of the list after), and a project that has a script still has one. *)
Theorem assets_grow_scripts_stay :
  (forall rs st q,
     get_or q [] (Studio.ASSETS st)
       `prefix_of` get_or q [] (Studio.ASSETS (Studio.run rs st)) /\
     (is_Some (Studio.SCRIPTS st !! q) ->
      is_Some (Studio.SCRIPTS (Studio.run rs st) !! q))) /\
  (forall rs st q,
     get_or q [] (Backend.ASSETS st)
       `prefix_of` get_or q [] (Backend.ASSETS (Backend.run rs st)) /\
     (is_Some (Backend.SCRIPTS st !! q) ->
      is_Some (Backend.SCRIPTS (Backend.run rs st) !! q))).
Proof.
  split.
  - intros rs. induction rs as [|r rs IH]; intros st q; simpl; [done|].
    destruct (studio_exec_grows r st q) as [Ha Hs].
    destruct (IH (Studio.exec r st) q) as [Ha' Hs'].
    split; [by etrans|auto].
  - intros rs. induction rs as [|r rs IH]; intros st q; simpl; [done|].
    destruct (backend_exec_grows r st q) as [Ha Hs].
    destruct (IH (Backend.exec r st) q) as [Ha' Hs'].
    split; [by etrans|auto].
Qed.

Lemma assets_grow_scripts_stay_witness :
  let st := Studio.run
      [Studio.CreateProject "u1" (Studio.CreateProjectReq.parse "T" "Dragons" None None);
       Studio.ProvideScript (Studio.ScriptProvideReq.make "u1" "one")]
      Studio.empty_tables in
  let rs := [Studio.Voice (Studio.VoiceReq.make "u1");
             Studio.GenerateScript (Studio.ScriptGenerateReq.make "u1" "Dragons")] in
  is_Some (Studio.SCRIPTS (Studio.run rs st) !! "u1").
Proof.
  intros st rs. apply (proj1 assets_grow_scripts_stay). vm_compute. eauto.
Defined.

(** X6.  No request ever creates a RenderJob: in both variants the Renders
    table is empty after any sequence of requests, and whenever GetProject
    returns, its render is absent. *)
Theorem render_is_always_absent :
  (forall rs pid,
     let st := Studio.run rs Studio.empty_tables in
     Studio.RENDERS st = ∅ /\
     match (Studio.get_project pid st).1 with
     | Returned view => Studio.ProjectView.render view = None
     | _ => True
     end) /\
  (forall rs pid,
     let st := Backend.run rs Backend.empty_tables in
     Backend.RENDERS st = ∅ /\
     match (Backend.get_project pid st).1 with
     | Returned view => Backend.ProjectView.render view = None
     | _ => True
     end).
Proof.
  split.
  - intros rs pid st.
    assert (Hr : forall rs st0, Studio.RENDERS (Studio.run rs st0) = Studio.RENDERS st0).
    { clear. intros rs. induction rs as [|r rs IH]; intros st0; simpl; [done|].
      by rewrite IH, studio_exec_RENDERS. }
    assert (Hempty : Studio.RENDERS st = ∅) by (unfold st; by rewrite Hr).
    split; [done|]. rewrite studio_get_project_eq.
    destruct (Studio.PROJECTS st !! pid); simpl; [|done].
    by rewrite Hempty, lookup_empty.
  - intros rs pid st.
    assert (Hr : forall rs st0, Backend.RENDERS (Backend.run rs st0) = Backend.RENDERS st0).
    { clear. intros rs. induction rs as [|r rs IH]; intros st0; simpl; [done|].
      by rewrite IH, backend_exec_RENDERS. }
    assert (Hempty : Backend.RENDERS st = ∅) by (unfold st; by rewrite Hr).
    split; [done|]. rewrite backend_get_project_eq.
    destruct (Backend.PROJECTS st !! pid); simpl; [|done].
    by rewrite Hempty, lookup_empty.
Qed.

(** * A whole workflow *)

Section Workflow.

(** Before a creation nothing is stored under the identifier it will hand
    out. *)
Lemma backend_next_pid_unused rs :
  let st := Backend.run rs Backend.empty_tables in
  let pid := Backend.next_pid (Backend.PROJECTS st) in
  Backend.PROJECTS st !! pid = None /\ Backend.SCRIPTS st !! pid = None /\
  Backend.ASSETS st !! pid = None /\ Backend.RENDERS st !! pid = None.
Proof.
  intros st pid.
  assert (Hfresh : Backend.PROJECTS st !! pid = None)
    by apply backend_next_pid_fresh, backend_run_numbered, backend_numbered_empty.
  destruct (backend_run_integrity rs _ backend_integrity_empty) as (Hs & Ha & Hr).
  fold st in Hs, Ha, Hr.
  split_and!; [done|..]; apply eq_None_not_Some; intros [x E].
  - destruct (Hs _ _ E) as [Hp _]. rewrite Hfresh in Hp. by destruct Hp.
  - destruct (Ha _ _ E) as [Hp _]. rewrite Hfresh in Hp. by destruct Hp.
  - destruct (Hr _ _ E) as [Hp _]. rewrite Hfresh in Hp. by destruct Hp.
Qed.

(** Nothing is stored under a UUID that was never drawn. *)
Lemma studio_undrawn_unused rs u :
  u ∉ Studio.uuids rs ->
  let st := Studio.run rs Studio.empty_tables in
  Studio.PROJECTS st !! u = None /\ Studio.SCRIPTS st !! u = None /\
  Studio.ASSETS st !! u = None /\ Studio.RENDERS st !! u = None.
Proof.
  intros Hnew st.
  assert (Hfresh : Studio.PROJECTS st !! u = None).
  { apply eq_None_not_Some. intros [Hp|Hin]%studio_run_keys; [|done].
    simpl in Hp. rewrite lookup_empty in Hp. by destruct Hp. }
  destruct (studio_run_integrity rs _ studio_integrity_empty) as (Hs & Ha & Hr).
  fold st in Hs, Ha, Hr.
  split_and!; [done|..]; apply eq_None_not_Some; intros [x E].
  - destruct (Hs _ _ E) as [Hp _]. rewrite Hfresh in Hp. by destruct Hp.
  - destruct (Ha _ _ E) as [Hp _]. rewrite Hfresh in Hp. by destruct Hp.
  - destruct (Hr _ _ E) as [Hp _]. rewrite Hfresh in Hp. by destruct Hp.
Qed.

End Workflow.

(** X7.  The whole workflow of [src/backend/main.py]: after any earlier
    requests, creating a project, generating its script, generating images
    without prompts and generating the voice-over all succeed on the new
    identifier, and GetProject then returns the stored record, the generated
    script (on the given topic, or the project's when none is given), four
    assets (three images, then the voice) and no render. *)
Theorem backend_workflow (rs : list Backend.request)
    (body : Backend.CreateProjectBody.t) (topic fandom voice : option string) :
  let st0 := Backend.run rs Backend.empty_tables in
  let pid := Backend.next_pid (Backend.PROJECTS st0) in
  let images := Backend.GenerateAIImagesBody.make pid None fandom in
  let st4 := Backend.run
      [Backend.CreateProject body;
       Backend.GenerateScript (Backend.GenerateScriptBody.make pid topic);
       Backend.GenerateAIImages images;
       Backend.GenerateVoiceover (Backend.TTSBody.make pid voice)] st0 in
  let assets := Backend.image_assets images ++ [Backend.voice_asset pid] in
  Backend.get_project pid st4
    = (Returned
         (Backend.ProjectView.make
            (backend_project (Backend.CreateProjectBody.title body)
               (Backend.CreateProjectBody.topic body)
               (Backend.CreateProjectBody.mode body)
               (Backend.CreateProjectBody.brand_name body))
            (Some (Backend.generated_script pid
                     (Backend.str_or topic (Backend.CreateProjectBody.topic body))))
            assets None), st4) /\
  length assets = 4%nat.
Proof.
  intros st0 pid images st4 assets.
  destruct (backend_next_pid_unused rs) as (Hp & Hs & Ha & Hr).
  fold st0 in Hp, Hs, Ha, Hr. fold pid in Hp, Hs, Ha, Hr.
  split; [|done].
  unfold st4. cbn [Backend.run Backend.exec].
  rewrite backend_create_project_eq. cbv zeta. cbn [snd]. fold pid.
  set (project := Backend.Project.new _ _ _ _).
  set (st1 := Backend.on_PROJECTS _ st0).
  assert (Hp1 : Backend.PROJECTS st1 !! pid = Some project)
    by (unfold st1; simpl; apply lookup_insert_eq).
  rewrite backend_generate_script_eq. cbn [Backend.GenerateScriptBody.project_id
    Backend.GenerateScriptBody.topic]. rewrite Hp1. cbv zeta. cbn [snd].
  set (script := Backend.generated_script _ _).
  set (st2 := Backend.on_SCRIPTS _ st1).
  assert (Hk2 : contains pid (Backend.PROJECTS st2) = true)
    by (apply contains_true; exists project; exact Hp1).
  rewrite backend_generate_ai_images_eq.
  cbn [Backend.GenerateAIImagesBody.project_id images]. unfold images at 1.
  cbn [Backend.GenerateAIImagesBody.project_id]. rewrite Hk2. cbn [snd].
  set (st3 := Backend.appended pid _ st2).
  assert (Hk3 : contains pid (Backend.PROJECTS st3) = true) by exact Hk2.
  assert (Hs3 : contains pid (Backend.SCRIPTS st3) = true)
    by (apply contains_true; exists script; apply lookup_insert_eq).
  rewrite backend_generate_voiceover_eq. cbn [Backend.TTSBody.project_id].
  rewrite Hk3, Hs3. cbn [snd].
  assert (Ha2 : Backend.ASSETS st2 !! pid = None) by exact Ha.
  assert (Ha3 : get_or pid [] (Backend.ASSETS st3) = Backend.image_assets images).
  { unfold st3, get_or. rewrite backend_appended_lookup. unfold get_or.
    by rewrite Ha2. }
  set (st := Backend.appended pid [Backend.voice_asset pid] st3).
  assert (Hp4 : Backend.PROJECTS st !! pid = Some project) by exact Hp1.
  assert (Hs4 : Backend.SCRIPTS st !! pid = Some script)
    by exact (lookup_insert_eq _ _ _).
  assert (Hr4 : Backend.RENDERS st !! pid = None) by exact Hr.
  assert (Ha4 : get_or pid [] (Backend.ASSETS st) = assets).
  { unfold st, get_or. by rewrite backend_appended_lookup, Ha3. }
  rewrite backend_get_project_eq. by rewrite Hp4, Hs4, Hr4, Ha4.
Qed.

(** X8.  The whole workflow of [src/main.py]: for a UUID not drawn before
    and a valid mode and fandom, creating a project, generating its script,
    requesting images and requesting the voice all succeed, and GetProject
    then returns the stored record, the generated script, four assets (three
    images, then the voice) and no render. *)
Theorem studio_workflow (rs : list Studio.request) (u title topic : string)
    (mode fandom : option string) (m : Studio.Mode) (f : Studio.Fandom)
    (script_topic image_fandom : string) (draws : list nat) :
  u ∉ Studio.uuids rs ->
  Studio.Mode_validate (default "auto" mode) = Some m ->
  Studio.Fandom_validate (default "generic" fandom) = Some f ->
  let st0 := Studio.run rs Studio.empty_tables in
  let generate := Studio.ScriptGenerateReq.make u script_topic in
  let st4 := Studio.run
      [Studio.CreateProject u (Studio.CreateProjectReq.parse title topic mode fandom);
       Studio.GenerateScript generate;
       Studio.AIImages draws (Studio.AIImagesReq.make u image_fandom);
       Studio.Voice (Studio.VoiceReq.make u)] st0 in
  let assets := Studio.picked_assets draws u image_fandom ++ [Studio.voice_asset u] in
  Studio.get_project u st4
    = (Returned
         (Studio.ProjectView.make (studio_project title topic m f)
            (Some (Studio.generated_script generate)) assets None), st4) /\
  length assets = 4%nat.
Proof.
  intros Hnew Hm Hf st0 generate st4 assets. subst generate.
  destruct (studio_undrawn_unused rs u Hnew) as (Hp & Hs & Ha & Hr).
  fold st0 in Hp, Hs, Ha, Hr.
  split; [|unfold assets; by rewrite length_app, studio_picked_assets_length].
  unfold st4. cbn [Studio.run Studio.exec].
  rewrite studio_create_project_eq.
  cbn [Studio.CreateProjectReq.parse Studio.CreateProjectReq.title
       Studio.CreateProjectReq.topic Studio.CreateProjectReq.mode
       Studio.CreateProjectReq.fandom].
  rewrite (studio_new_defaults _ _ _ _ m f Hm Hf). cbn [snd].
  set (st1 := Studio.on_PROJECTS _ st0).
  assert (Hp1 : Studio.PROJECTS st1 !! u = Some (studio_project title topic m f))
    by (unfold st1; simpl; apply lookup_insert_eq).
  assert (Hk1 : contains u (Studio.PROJECTS st1) = true)
    by (apply contains_true; eexists; exact Hp1).
  rewrite studio_generate_script_eq.
  cbn [Studio.ScriptGenerateReq.project_id]. rewrite Hk1. cbn [snd].
  set (st2 := Studio.on_SCRIPTS _ st1).
  assert (Hk2 : contains u (Studio.PROJECTS st2) = true) by exact Hk1.
  rewrite studio_ai_images_eq.
  cbn [Studio.AIImagesReq.project_id Studio.AIImagesReq.fandom].
  rewrite Hk2. cbv zeta. cbn [snd].
  set (st3 := Studio.appended u _ st2).
  assert (Hk3 : contains u (Studio.PROJECTS st3) = true) by exact Hk1.
  rewrite studio_voice_eq. cbn [Studio.VoiceReq.project_id]. rewrite Hk3. cbn [snd].
  assert (Ha2 : Studio.ASSETS st2 !! u = None) by exact Ha.
  assert (Ha3 : get_or u [] (Studio.ASSETS st3)
                = Studio.picked_assets draws u image_fandom).
  { unfold st3, get_or. rewrite studio_appended_lookup. unfold get_or.
    by rewrite Ha2. }
  set (st := Studio.appended u [Studio.voice_asset u] st3).
  assert (Hp4 : Studio.PROJECTS st !! u = Some (studio_project title topic m f))
    by exact Hp1.
  assert (Hs4 : Studio.SCRIPTS st !! u
                = Some (Studio.generated_script (Studio.ScriptGenerateReq.make u script_topic)))
    by exact (lookup_insert_eq _ _ _).
  assert (Hr4 : Studio.RENDERS st !! u = None) by exact Hr.
  assert (Ha4 : get_or u [] (Studio.ASSETS st) = assets).
  { unfold st, get_or. by rewrite studio_appended_lookup, Ha3. }
  rewrite studio_get_project_eq. by rewrite Hp4, Hs4, Hr4, Ha4.
Qed.

Lemma studio_workflow_witness :
  let st4 := Studio.run
      [Studio.CreateProject "p1" (Studio.CreateProjectReq.parse "T" "Dragons" (Some "auto") None);
       Studio.GenerateScript (Studio.ScriptGenerateReq.make "p1" "Dragons");
       Studio.AIImages [1%nat; 1%nat] (Studio.AIImagesReq.make "p1" "game_of_thrones");
       Studio.Voice (Studio.VoiceReq.make "p1")] Studio.empty_tables in
  exists view,
    Studio.get_project "p1" st4 = (Returned view, st4) /\
    length (Studio.ProjectView.assets view) = 4%nat.
Proof.
  intros st4.
  destruct (studio_workflow [] "p1" "T" "Dragons" (Some "auto") None
              Studio.ModeAuto Studio.Generic "Dragons" "game_of_thrones"
              [1%nat; 1%nat]) as [Hview Hlen].
  - apply not_elem_of_nil.
  - reflexivity.
  - reflexivity.
  - eexists. split; [exact Hview|exact Hlen].
Defined.

(** * The timeline of a provided script, in general *)

Section TimelineBounds.

Lemma per_line_overflow lines :
  (55 < length lines)%nat -> Studio.per_line lines = 1.
Proof.
  intros Hn. unfold Studio.per_line, Studio.dur.
  rewrite (Z.max_r 1 (Z.of_nat (length lines))) by lia.
  rewrite Z.div_small by lia. done.
Qed.

Lemma per_line_floor lines :
  (1 <= length lines <= 55)%nat ->
  Studio.per_line lines = 55 / Z.of_nat (length lines).
Proof.
  intros Hn. unfold Studio.per_line, Studio.dur.
  rewrite (Z.max_r 1 (Z.of_nat (length lines))) by lia.
  apply Z.max_r. apply Z.div_le_lower_bound; lia.
Qed.

End TimelineBounds.

(** X9.  For every text, the [i]-th segment stored by [provide_script] of
    [src/main.py] starts at [i * per] and ends at [min 55 (i * per + per)],
    where [per] is the window length.  With more than 55 lines [per] is 1,
    every segment from index 55 on ends at exactly 55, and every segment
    from index 56 on ends before it starts. *)
Theorem provided_segment_times (pid text : string) (i : nat)
    (s : Studio.ScriptSegment.t) :
  let lines := Studio.script_lines text in
  let per := Studio.per_line lines in
  Studio.Script.segments
    (Studio.provided_script (Studio.ScriptProvideReq.make pid text)) !! i = Some s ->
  Studio.ScriptSegment.start s = Z.of_nat i * per /\
  Studio.ScriptSegment.end_ s = Z.min 55 (Z.of_nat i * per + per) /\
  ((55 < length lines)%nat ->
     per = 1 /\
     ((55 <= i)%nat -> Studio.ScriptSegment.end_ s = 55) /\
     ((56 <= i)%nat -> Studio.ScriptSegment.end_ s < Studio.ScriptSegment.start s)).
Proof.
  intros lines per Hs. unfold Studio.provided_script in Hs. simpl in Hs.
  apply segment_lines_lookup in Hs as (l & _ & ->). simpl.
  fold lines. fold per. unfold Studio.dur.
  split; [lia|]. split; [f_equal; lia|].
  intros Hn. pose proof (per_line_overflow lines Hn) as Hper. fold per in Hper.
  rewrite Hper. split; [done|]. split; intros Hi; lia.
Qed.

Lemma provided_segment_times_witness :
  exists s,
    Studio.Script.segments
      (Studio.provided_script (Studio.ScriptProvideReq.make "p" (text_of_lines 60)))
      !! 58%nat = Some s /\
    Studio.ScriptSegment.start s = 58 /\ Studio.ScriptSegment.end_ s = 55.
Proof.
  assert (Hs : Studio.Script.segments
      (Studio.provided_script (Studio.ScriptProvideReq.make "p" (text_of_lines 60)))
      !! 58%nat = Some (Studio.ScriptSegment.make 58 55 "a")) by by vm_compute.
  exists (Studio.ScriptSegment.make 58 55 "a"). split; [exact Hs|].
  destruct (provided_segment_times "p" (text_of_lines 60) 58 _ Hs) as (_ & _ & Hover).
  split; [reflexivity|].
  destruct Hover as (_ & H55 & _); [vm_compute; lia|]. apply H55. lia.
Defined.

(** X10.  For a text with between 1 and 55 non-empty lines, the timeline
    stored by [provide_script] of [src/main.py] starts at 0 and its last
    segment ends at [n * floor(55 / n)]: at most 55, and less than [n]
    seconds short of it. *)
Theorem provided_timeline_coverage (pid text : string) :
  let lines := Studio.script_lines text in
  let n := Z.of_nat (length lines) in
  let segs := Studio.Script.segments
                (Studio.provided_script (Studio.ScriptProvideReq.make pid text)) in
  (1 <= length lines <= 55)%nat ->
  exists first final,
    segs !! 0%nat = Some first /\ Studio.ScriptSegment.start first = 0 /\
    last segs = Some final /\
    Studio.ScriptSegment.end_ final = n * (55 / n) /\
    55 - n < Studio.ScriptSegment.end_ final <= 55.
Proof.
  intros lines n segs Hn.
  assert (Hlen : length segs = length lines) by apply segment_lines_length.
  destruct (lookup_lt_is_Some_2 segs 0) as [first Hfirst]; [lia|].
  destruct (lookup_lt_is_Some_2 segs (pred (length segs))) as [final Hfinal]; [lia|].
  exists first, final. rewrite last_lookup.
  pose proof (per_line_floor lines Hn) as Hper.
  assert (Hstart : Studio.ScriptSegment.start first = 0).
  { pose proof Hfirst as (l & _ & ->)%segment_lines_lookup. simpl. lia. }
  assert (Hend : Studio.ScriptSegment.end_ final
                 = Z.min 55 ((n - 1) * Studio.per_line lines + Studio.per_line lines)).
  { pose proof Hfinal as (l & _ & ->)%segment_lines_lookup. simpl.
    unfold Studio.dur. f_equal. fold lines. fold segs. rewrite Hlen. subst n.
    replace (Z.of_nat (pred (length lines))) with (Z.of_nat (length lines) - 1) by lia.
    ring. }
  rewrite Hend, Hper. fold n.
  pose proof (Z.mul_div_le 55 n ltac:(lia)) as Hle.
  pose proof (Z.mod_pos_bound 55 n ltac:(lia)) as Hmod.
  pose proof (Z.div_mod 55 n ltac:(lia)) as Hdm.
  set (q := 55 / n) in *.
  replace ((n - 1) * q + q) with (n * q) by ring.
  rewrite Z.min_r by lia.
  split_and!; [done|done|done|done|lia|lia].
Qed.

Lemma provided_timeline_coverage_witness :
  exists final,
    last (Studio.Script.segments
            (Studio.provided_script (Studio.ScriptProvideReq.make "p" (text_of_lines 4))))
      = Some final /\
    51 < Studio.ScriptSegment.end_ final <= 55.
Proof.
  destruct (provided_timeline_coverage "p" (text_of_lines 4))
    as (first & final & _ & _ & Hlast & _ & Hbound).
  - vm_compute. lia.
  - exists final. split; [exact Hlast|].
    change (Z.of_nat (length (Studio.script_lines (text_of_lines 4)))) with 4 in Hbound.
    lia.
Defined.

(** * More about the string methods *)

Section StringFacts.
Import PyStr.

Lemma append_cons c (s t : string) : String c s +:+ t = String c (s +:+ t).
Proof. reflexivity. Qed.

Lemma append_empty_l (s : string) : "" +:+ s = s.
Proof. reflexivity. Qed.

Lemma append_empty_r (s : string) : s +:+ "" = s.
Proof. induction s as [|c s IH]; [done|]. by rewrite append_cons, IH. Qed.

Lemma append_assoc (a b c : string) : (a +:+ b) +:+ c = a +:+ b +:+ c.
Proof. induction a as [|x a IH]; [done|]. by rewrite !append_cons, IH. Qed.

Lemma rev_app_rev_app (s a b : string) :
  String.rev_app (String.rev_app s a) b = String.rev_app a (s +:+ b).
Proof.
  revert a b. induction s as [|c s IH]; intros a b; [done|].
  rewrite append_cons. simpl. by rewrite IH.
Qed.

Lemma rev_involutive (s : string) : String.rev (String.rev s) = s.
Proof.
  unfold String.rev. rewrite rev_app_rev_app. simpl. apply append_empty_r.
Qed.

Lemma rev_app_append (s acc : string) :
  String.rev_app s acc = String.rev s +:+ acc.
Proof.
  unfold String.rev. revert acc. induction s as [|c s IH]; intros acc; [done|].
  simpl. rewrite IH, (IH (String c "")). by rewrite append_assoc.
Qed.

Lemma rev_append (a b : string) :
  String.rev (a +:+ b) = String.rev b +:+ String.rev a.
Proof.
  induction a as [|c a IH].
  - by rewrite append_empty_l, append_empty_r.
  - rewrite append_cons. unfold String.rev in *. simpl.
    rewrite (rev_app_append (a +:+ b)), (rev_app_append a).
    unfold String.rev. rewrite IH. by rewrite append_assoc.
Qed.

Lemma truthy_rev (s : string) : truthy (String.rev s) = truthy s.
Proof.
  destruct s as [|c s]; [done|]. unfold String.rev. simpl.
  rewrite rev_app_append. destruct (String.rev s); [done|].
  by rewrite append_cons.
Qed.

Lemma truthy_append (a b : string) : truthy (a +:+ b) = truthy a || truthy b.
Proof. destruct a; [done|]. by rewrite append_cons. Qed.

Lemma starts_clean_append (a b : string) :
  truthy a = true -> starts_clean (a +:+ b) = starts_clean a.
Proof. destruct a; [done|]. by rewrite append_cons. Qed.

Lemma all_chars_append p (a b : string) :
  all_chars p (a +:+ b) = all_chars p a && all_chars p b.
Proof.
  induction a as [|c a IH]; [done|].
  rewrite append_cons. simpl. by rewrite IH, andb_assoc.
Qed.






Lemma lstrip_clean (s : string) : starts_clean s = true -> lstrip s = s.
Proof. destruct s as [|c s]; simpl; [done|]. by destruct (isspace c). Qed.


(** A trimmed string is left as it is. *)
Lemma strip_trimmed (s : string) : trimmed s = true -> strip s = s.
Proof.
  unfold trimmed. intros [[_ Hl]%andb_true_iff Hr]%andb_true_iff.
  unfold strip, rstrip. rewrite (lstrip_clean s Hl), (lstrip_clean _ Hr).
  apply rev_involutive.
Qed.


Lemma trimmed_truthy (s : string) : trimmed s = true -> truthy s = true.
Proof. unfold trimmed. by intros [[? _]%andb_true_iff _]%andb_true_iff. Qed.


End StringFacts.

Section LineFacts.
Import PyStr.





End LineFacts.


Section VariantsAgree.
Import PyStr.

Lemma splitlines_split_agree_upto (n : nat) (s line : string) :
  (String.length s <= n)%nat ->
  all_chars plain_break s = true ->
  List.filter kept (splitlines_go line s)
  = List.filter kept (split_go LF line (replace CR LF s)).
Proof.
  revert s line. induction n as [|n IH]; intros s line Hn Hs.
  - destruct s; simpl in *; [|lia]. by destruct line.
  - destruct s as [|c s]; [by destruct line|].
    simpl in Hn. simpl in Hs. apply andb_true_iff in Hs as [Hc Hs].
    destruct (islinebreak c) eqn:Hbreak.
    + assert (Hcases : c = CR \/ c = LF).
      { unfold plain_break, not_linebreak in Hc. rewrite Hbreak in Hc. simpl in Hc.
        apply orb_true_iff in Hc as [Hc|Hc]; apply bool_decide_eq_true in Hc; auto. }
      destruct Hcases as [-> | ->].
      * destruct s as [|c' s'].
        { simpl. by destruct (kept (String.rev line)). }
        destruct (decide (c' = LF)) as [->|Hne].
        { simpl. simpl in Hn, Hs.
          rewrite (IH s' "") by (done || lia).
          by destruct (kept (String.rev line)). }
        assert (Hgo : splitlines_go line (String CR (String c' s'))
                      = String.rev line :: splitlines_go "" (String c' s')).
        { destruct c' as [[] [] [] [] [] [] [] []]; try reflexivity. by destruct Hne. }
        rewrite Hgo. cbn [List.filter].
        rewrite (IH (String c' s') "") by (done || lia).
        simpl. by destruct (kept (String.rev line)).
      * simpl. rewrite (IH s "") by (done || lia).
        by destruct (kept (String.rev line)).
    + assert (c <> CR) by (by intros ->).
      assert (c <> LF) by (by intros ->).
      simpl. rewrite Hbreak.
      destruct (decide (c = CR)); [done|]. destruct (decide (c = LF)); [done|].
      apply IH; [lia|done].
Qed.

End VariantsAgree.

(** X12.  On a text whose only line boundaries are carriage returns and
    line feeds, both variants cut the same lines: the stripped pieces of
    [src/backend/main.py] are the stripped lines of [src/main.py], and when
    there is at least one, the backend's stored segments are the texts of
    the segments [src/main.py] stores. *)
Theorem variants_cut_the_same_lines (pid text : string) :
  all_chars plain_break text = true ->
  Backend.stripped_pieces text = Studio.script_lines text /\
  (Studio.script_lines text <> [] ->
   Backend.provided_segments text
   = map Studio.ScriptSegment.text
       (Studio.Script.segments
          (Studio.provided_script (Studio.ScriptProvideReq.make pid text)))).
Proof.
  intros Hplain.
  assert (Heq : Backend.stripped_pieces text = Studio.script_lines text).
  { unfold Backend.stripped_pieces, Studio.script_lines, PyStr.split, PyStr.splitlines.
    f_equal. symmetry.
    exact (splitlines_split_agree_upto (String.length text) text "" (le_n _) Hplain). }
  split; [done|]. intros Hne.
  unfold Studio.provided_script. simpl. rewrite segment_lines_texts.
  unfold Backend.provided_segments. rewrite Heq.
  by destruct (Studio.script_lines text).
Qed.

Lemma variants_cut_the_same_lines_witness :
  let text := "one" +:+ String PyStr.CR PyStr.NL +:+ " two " +:+ PyStr.NL
              +:+ PyStr.NL +:+ "three" in
  Backend.stripped_pieces text = Studio.script_lines text /\
  Studio.script_lines text = ["one"; "two"; "three"].
Proof.
  intros text. split; [|reflexivity].
  exact (proj1 (variants_cut_the_same_lines "p" text eq_refl)).
Defined.

Section RoundTrip.
Import PyStr.

Lemma replace_without (a b : ascii) (s : string) :
  all_chars (fun c => negb (bool_decide (c = a))) s = true -> replace a b s = s.
Proof.
  induction s as [|c s IH]; simpl; [done|].
  intros [Hc Hs]%andb_true_iff. rewrite (IH Hs).
  destruct (decide (c = a)) as [->|Hne]; [|done].
  by rewrite bool_decide_eq_true_2 in Hc.
Qed.

Lemma not_crlf_parts (c : ascii) :
  not_crlf c = true -> c <> CR /\ c <> LF.
Proof.
  unfold not_crlf. intros [H1 H2]%andb_true_iff.
  apply negb_true_iff, bool_decide_eq_false in H1.
  apply negb_true_iff, bool_decide_eq_false in H2. done.
Qed.

Lemma not_crlf_no_CR (s : string) :
  all_chars not_crlf s = true ->
  all_chars (fun c => negb (bool_decide (c = CR))) s = true.
Proof.
  induction s as [|c s IH]; simpl; [done|].
  intros [Hc Hs]%andb_true_iff. rewrite (IH Hs), andb_true_r.
  apply not_crlf_parts in Hc as [Hc _]. by rewrite bool_decide_eq_false_2.
Qed.

(** A piece without line feed is read up to its end. *)
Lemma split_go_piece (p cur rest : string) :
  all_chars not_crlf p = true ->
  split_go LF cur (p +:+ rest) = split_go LF (String.rev_app p cur) rest.
Proof.
  revert cur. induction p as [|c p IH]; intros cur Hp; [done|].
  simpl in Hp. apply andb_true_iff in Hp as [Hc Hp].
  apply not_crlf_parts in Hc as [_ Hc].
  rewrite append_cons. simpl. destruct (decide (c = LF)); [done|]. by apply IH.
Qed.

(** Splitting what was joined gives the parts back. *)
Lemma split_join (parts : list string) :
  parts <> [] ->
  Forall (fun p => all_chars not_crlf p = true) parts ->
  split LF (join NL parts) = parts.
Proof.
  intros Hne Hparts. unfold split.
  induction Hparts as [|p rest Hp Hrest IH]; [done|].
  destruct rest as [|q rest].
  - simpl. rewrite <- (append_empty_r p) at 1.
    rewrite split_go_piece by done. simpl.
    change (String.rev_app p "") with (String.rev p).
    by rewrite rev_involutive.
  - change (join NL (p :: q :: rest)) with (p +:+ NL +:+ join NL (q :: rest)).
    rewrite split_go_piece by done.
    unfold NL at 1. rewrite append_cons, append_empty_l. cbn [split_go].
    destruct (decide (LF = LF)); [|done].
    rewrite IH by done.
    change (String.rev_app p "") with (String.rev p).
    by rewrite rev_involutive.
Qed.

Lemma join_no_CR (parts : list string) :
  Forall (fun p => all_chars not_crlf p = true) parts ->
  all_chars (fun c => negb (bool_decide (c = CR))) (join NL parts) = true.
Proof.
  induction 1 as [|p rest Hp Hrest IH]; [done|].
  destruct rest as [|q rest]; [by apply not_crlf_no_CR|].
  change (join NL (p :: q :: rest)) with (p +:+ NL +:+ join NL (q :: rest)).
  rewrite !all_chars_append, IH, (not_crlf_no_CR p Hp). done.
Qed.

Lemma filter_strip_trimmed (parts : list string) :
  Forall (fun p => trimmed p = true) parts ->
  map strip (List.filter (fun l => truthy (strip l)) parts) = parts.
Proof.
  induction 1 as [|p rest Hp _ IH]; simpl; [done|].
  rewrite (strip_trimmed p Hp), (trimmed_truthy p Hp). simpl.
  by rewrite (strip_trimmed p Hp), IH.
Qed.

(** Providing the join of clean parts stores exactly these parts. *)
Lemma stripped_pieces_join (parts : list string) :
  parts <> [] ->
  Forall (fun p => trimmed p = true /\ all_chars not_crlf p = true) parts ->
  Backend.provided_segments (join NL parts) = parts.
Proof.
  intros Hne Hparts.
  assert (H1 : Forall (fun p => all_chars not_crlf p = true) parts)
    by (eapply Forall_impl; [exact Hparts|by intros p [_ ?]]).
  assert (H2 : Forall (fun p => trimmed p = true) parts)
    by (eapply Forall_impl; [exact Hparts|by intros p [? _]]).
  unfold Backend.provided_segments, Backend.stripped_pieces.
  rewrite replace_without by by apply join_no_CR.
  rewrite split_join by done.
  rewrite filter_strip_trimmed by done.
  by destruct parts.
Qed.

Lemma trimmed_append (a b : string) :
  truthy a = true -> starts_clean a = true ->
  truthy b = true -> starts_clean (String.rev b) = true ->
  trimmed (a +:+ b) = true.
Proof.
  intros Ha Hac Hb Hbc. unfold trimmed.
  rewrite truthy_append, Ha, starts_clean_append, Hac by done. simpl.
  rewrite rev_append, starts_clean_append; [done|by rewrite truthy_rev].
Qed.

(** The five lines of a generated script are clean when the topic is
    non-empty, has no trailing whitespace and no line feed or carriage
    return. *)
Lemma script_segments_clean (topic : string) :
  truthy topic = true -> starts_clean (String.rev topic) = true ->
  all_chars not_crlf topic = true ->
  Forall (fun p => trimmed p = true /\ all_chars not_crlf p = true)
    (Backend.script_segments topic).
Proof.
  intros Hne Hend Hchars. unfold Backend.script_segments.
  cbn [app].
  repeat (apply List.Forall_cons; [split|]); try apply List.Forall_nil;
    try reflexivity.
  - apply trimmed_append; [done|done|by rewrite truthy_append, Hne|].
    by rewrite rev_append, starts_clean_append.
  - by rewrite !all_chars_append, Hchars.
  - by apply trimmed_append.
  - by rewrite all_chars_append, Hchars.
Qed.

End RoundTrip.

(** X13.  In [src/backend/main.py], providing the text of a generated script
    gives the generated script back: when the topic used (the given one, or
    the project's) is non-empty, does not end in whitespace and holds no
    carriage return or line feed, ProvideScript on that text returns the
    same Script, five segments included, and leaves the tables as
    GenerateScript left them. *)
Theorem provide_generated_text_round_trip
    (st : Backend.Tables) (pid : string) (project : Backend.Project.t)
    (topic : option string) :
  Backend.PROJECTS st !! pid = Some project ->
  let used := Backend.str_or topic (Backend.Project.topic project) in
  PyStr.truthy used = true ->
  starts_clean (String.rev used) = true ->
  all_chars not_crlf used = true ->
  let generated := Backend.generate_script (Backend.GenerateScriptBody.make pid topic) st in
  let script := Backend.generated_script pid used in
  generated.1 = Returned script /\
  length (Backend.Script.segments script) = 5%nat /\
  Backend.provide_script
    (Backend.ProvideScriptBody.make pid (Backend.Script.text script)) generated.2
  = (Returned script, generated.2).
Proof.
  intros Hp used Hne Hend Hchars generated script.
  unfold generated. rewrite backend_generate_script_eq.
  cbn [Backend.GenerateScriptBody.project_id Backend.GenerateScriptBody.topic].
  rewrite Hp. cbv zeta. cbn [fst snd]. fold used. fold script.
  split; [done|]. split; [done|].
  rewrite backend_provide_script_eq.
  cbn [Backend.ProvideScriptBody.project_id Backend.ProvideScriptBody.text].
  assert (Hk : contains pid (Backend.PROJECTS (Backend.on_SCRIPTS <[pid := script]> st))
               = true) by (apply contains_true; exists project; exact Hp).
  rewrite Hk. cbv zeta.
  assert (Hsegs : Backend.provided_segments (Backend.Script.text script)
                  = Backend.Script.segments script).
  { apply stripped_pieces_join; [done|]. by apply script_segments_clean. }
  rewrite Hsegs. rewrite backend_on_SCRIPTS_twice. done.
Qed.

Lemma provide_generated_text_round_trip_witness :
  let st := Backend.run
      [Backend.CreateProject (Backend.CreateProjectBody.make "T" "Dragons" "auto" None None)]
      Backend.empty_tables in
  let script := Backend.generated_script "proj_1" "Dragons" in
  let generated := Backend.generate_script
                     (Backend.GenerateScriptBody.make "proj_1" None) st in
  Backend.provide_script
    (Backend.ProvideScriptBody.make "proj_1" (Backend.Script.text script)) generated.2
  = (Returned script, generated.2).
Proof.
  intros st script generated.
  refine (proj2 (proj2 (provide_generated_text_round_trip st "proj_1"
            (backend_project "T" "Dragons" "auto" None) None _ _ _ _)));
    reflexivity.
Defined.

(** * More about image and voice assets *)

Section MoreAssets.

Lemma resolve_fandom_NoDup fandom : NoDup (Studio.resolve_fandom fandom).1.
Proof.
  unfold Studio.resolve_fandom.
  repeat case_decide; simpl; apply (bool_decide_unpack _); by vm_compute.
Qed.

Lemma resolve_fandom_other fandom :
  fandom <> "harry_potter" -> fandom <> "game_of_thrones" ->
  Studio.resolve_fandom fandom
  = (Studio.GENERIC_GIFS, ["magic particles"; "fantasy landscape"; "mystic smoke"]).
Proof. intros H1 H2. unfold Studio.resolve_fandom. by repeat case_decide. Qed.

End MoreAssets.

(** X14.  The three image assets of one [ai_images] call of [src/main.py]
    have pairwise distinct URLs, and each records the fandom string exactly
    as requested.  Any fandom string other than "harry_potter" and
    "game_of_thrones", known to the schema or not, draws from the generic
    pool. *)
Theorem studio_image_assets_distinct (draws : list nat) (pid fandom : string) :
  let assets := Studio.picked_assets draws pid fandom in
  NoDup (map Studio.MediaAsset.url assets) /\
  Forall (fun a => Studio.MediaAsset.meta a !! "fandom" = Some fandom) assets /\
  (fandom <> "harry_potter" -> fandom <> "game_of_thrones" ->
   map Studio.MediaAsset.url assets ≡ₚ Studio.GENERIC_GIFS).
Proof.
  intros assets. subst assets. split_and!.
  - rewrite (studio_picked_assets_urls draws pid fandom).
    apply resolve_fandom_NoDup.
  - unfold Studio.picked_assets. destruct (Studio.resolve_fandom fandom).
    apply list.Forall_forall. intros a (up & -> & _)%list_elem_of_fmap.
    simpl. rewrite lookup_insert_ne by done. apply lookup_insert_eq.
  - intros H1 H2.
    rewrite (studio_picked_assets_urls draws pid fandom).
    by rewrite resolve_fandom_other.
Qed.

Lemma studio_image_assets_distinct_witness :
  map Studio.MediaAsset.url (Studio.picked_assets [0%nat; 1%nat] "p" "star_wars")
    ≡ₚ Studio.GENERIC_GIFS.
Proof.
  by apply (proj2 (proj2 (studio_image_assets_distinct [0%nat; 1%nat] "p" "star_wars"))).
Defined.

(** X15.  In [src/backend/main.py] a GenerateImageAssets call appends at
    least one and at most three assets, and an empty prompt list is treated
    as no prompt list: the call then uses the three fandom-derived
    prompts. *)
Theorem backend_image_count (pid : string) (prompts : option (list string))
    (fandom : option string) :
  (1 <= length (Backend.image_assets
                  (Backend.GenerateAIImagesBody.make pid prompts fandom)) <= 3)%nat /\
  Backend.image_assets (Backend.GenerateAIImagesBody.make pid (Some []) fandom)
  = Backend.image_assets (Backend.GenerateAIImagesBody.make pid None fandom).
Proof.
  split; [|done].
  unfold Backend.image_assets. rewrite length_map, length_zip_with.
  cbn [Backend.GenerateAIImagesBody.prompts Backend.GenerateAIImagesBody.fandom].
  change (length Backend.sample_gifs) with 3%nat.
  destruct prompts as [[|p ps]|];
    cbn [Backend.list_or Backend.default_prompts length]; lia.
Qed.

(** X16.  GenerateVoiceAsset is not idempotent: in both variants two calls
    on a project that meets the preconditions append two voice assets, one
    after the other, to what was there. *)
Theorem voice_assets_accumulate :
  (forall st pid,
     is_Some (Studio.PROJECTS st !! pid) ->
     let req := Studio.VoiceReq.make pid in
     Studio.ASSETS (Studio.voice req (Studio.voice req st).2).2 !! pid
     = Some (get_or pid [] (Studio.ASSETS st)
               ++ [Studio.voice_asset pid; Studio.voice_asset pid])) /\
  (forall st pid voice1 voice2,
     is_Some (Backend.PROJECTS st !! pid) -> is_Some (Backend.SCRIPTS st !! pid) ->
     Backend.ASSETS
       (Backend.generate_voiceover (Backend.TTSBody.make pid voice2)
          (Backend.generate_voiceover (Backend.TTSBody.make pid voice1) st).2).2 !! pid
     = Some (get_or pid [] (Backend.ASSETS st)
               ++ [Backend.voice_asset pid; Backend.voice_asset pid])).
Proof.
  split.
  - intros st pid Hp%contains_true req.
    rewrite !studio_voice_eq. cbn [Studio.VoiceReq.project_id req].
    unfold req. cbn [Studio.VoiceReq.project_id]. rewrite Hp. cbn [snd].
    assert (Hp' : contains pid (Studio.PROJECTS
              (Studio.appended pid [Studio.voice_asset pid] st)) = true) by exact Hp.
    rewrite Hp'. cbn [snd].
    by rewrite studio_appended_twice, studio_appended_lookup.
  - intros st pid voice1 voice2 Hp%contains_true Hs%contains_true.
    rewrite !backend_generate_voiceover_eq. cbn [Backend.TTSBody.project_id].
    rewrite Hp, Hs. cbn [snd].
    assert (Hp' : contains pid (Backend.PROJECTS
              (Backend.appended pid [Backend.voice_asset pid] st)) = true) by exact Hp.
    assert (Hs' : contains pid (Backend.SCRIPTS
              (Backend.appended pid [Backend.voice_asset pid] st)) = true) by exact Hs.
    rewrite Hp', Hs'. cbn [snd].
    by rewrite backend_appended_twice, backend_appended_lookup.
Qed.

Lemma voice_assets_accumulate_witness :
  let st := Studio.run
      [Studio.CreateProject "u1" (Studio.CreateProjectReq.parse "T" "Dragons" None None)]
      Studio.empty_tables in
  let req := Studio.VoiceReq.make "u1" in
  Studio.ASSETS (Studio.voice req (Studio.voice req st).2).2 !! "u1"
  = Some (get_or "u1" [] (Studio.ASSETS st)
            ++ [Studio.voice_asset "u1"; Studio.voice_asset "u1"]).
Proof.
  intros st req. apply (proj1 voice_assets_accumulate). vm_compute. eauto.
Defined.

(** * Validation and defaults at creation and generation *)

(** X17.  [create_project] of [src/main.py] stores a project exactly when
    the mode is "auto" or "step" and the fandom is one of the three known
    ones; otherwise [Project(...)] raises, nothing is stored and no
    identifier is returned. *)
Theorem studio_create_validates (u : string) (req : Studio.CreateProjectReq.t)
    (st : Studio.Tables) :
  let valid :=
    (Studio.CreateProjectReq.mode req = "auto" \/
     Studio.CreateProjectReq.mode req = "step") /\
    (Studio.CreateProjectReq.fandom req = "harry_potter" \/
     Studio.CreateProjectReq.fandom req = "game_of_thrones" \/
     Studio.CreateProjectReq.fandom req = "generic") in
  (valid ->
   exists m f,
     Studio.create_project u req st
     = (Returned u,
        Studio.on_PROJECTS
          <[u := studio_project (Studio.CreateProjectReq.title req)
                   (Studio.CreateProjectReq.topic req) m f]> st)) /\
  (~ valid -> Studio.create_project u req st = (Uncaught "ValidationError", st)).
Proof.
  intros valid. rewrite studio_create_project_eq.
  unfold Studio.Project.new, Studio.Mode_validate, Studio.Fandom_validate, valid.
  split.
  - intros [Hm Hf].
    repeat case_decide; simpl; try (by eauto); exfalso; tauto.
  - intros Hinvalid.
    repeat case_decide; simpl; try done; exfalso; tauto.
Qed.

Lemma studio_create_validates_witness :
  Studio.create_project "u1"
    (Studio.CreateProjectReq.parse "T" "Dragons" None (Some "star_wars"))
    Studio.empty_tables
  = (Uncaught "ValidationError", Studio.empty_tables).
Proof.
  apply (proj2 (studio_create_validates "u1" _ Studio.empty_tables)).
  intros [_ [H|[H|H]]]; discriminate H.
Defined.

(** X18.  In [src/backend/main.py], GenerateScript without a topic, or with
    the empty topic, is GenerateScript with the topic stored in the
    project. *)
Theorem backend_topic_falls_back (st : Backend.Tables) (pid : string) :
  Backend.generate_script (Backend.GenerateScriptBody.make pid (Some "")) st
  = Backend.generate_script (Backend.GenerateScriptBody.make pid None) st /\
  (forall project,
     Backend.PROJECTS st !! pid = Some project ->
     Backend.generate_script (Backend.GenerateScriptBody.make pid None) st
     = Backend.generate_script
         (Backend.GenerateScriptBody.make pid (Some (Backend.Project.topic project))) st).
Proof.
  rewrite !backend_generate_script_eq.
  cbn [Backend.GenerateScriptBody.project_id Backend.GenerateScriptBody.topic].
  split; [done|].
  intros project Hp. rewrite backend_generate_script_eq.
  cbn [Backend.GenerateScriptBody.project_id Backend.GenerateScriptBody.topic].
  rewrite Hp. cbv zeta. unfold Backend.str_or.
  by destruct (PyStr.truthy (Backend.Project.topic project)).
Qed.

Lemma backend_topic_falls_back_witness :
  let st := Backend.run
      [Backend.CreateProject (Backend.CreateProjectBody.make "T" "Dragons" "auto" None None)]
      Backend.empty_tables in
  Backend.generate_script (Backend.GenerateScriptBody.make "proj_1" None) st
  = Backend.generate_script (Backend.GenerateScriptBody.make "proj_1" (Some "Dragons")) st.
Proof.
  intros st.
  exact (proj2 (backend_topic_falls_back st "proj_1")
           (backend_project "T" "Dragons" "auto" None) eq_refl).
Defined.

(** * Order of requests *)

Section Order.

(** What a script request of [src/main.py] does: it stores a script that
    does not depend on the tables, when the project is known. *)
Lemma studio_script_request_eq r :
  studio_script_request r = true ->
  exists p script, forall st',
    Studio.exec r st' = if contains p (Studio.PROJECTS st')
                        then Studio.on_SCRIPTS <[p := script]> st' else st'.
Proof.
  destruct r as [| | |req|req| |]; try done; intros _; cbn [Studio.exec].
  - exists (Studio.ScriptGenerateReq.project_id req), (Studio.generated_script req).
    intros st'. rewrite studio_generate_script_eq. by destruct (contains _ _).
  - exists (Studio.ScriptProvideReq.project_id req), (Studio.provided_script req).
    intros st'. rewrite studio_provide_script_eq. by destruct (contains _ _).
Qed.

Lemma studio_asset_request_eq r :
  studio_asset_request r = true ->
  exists q more, forall st',
    Studio.exec r st' = if contains q (Studio.PROJECTS st')
                        then Studio.appended q more st' else st'.
Proof.
  destruct r as [| | | | |draws req|req]; try done; intros _; cbn [Studio.exec].
  - exists (Studio.AIImagesReq.project_id req),
      (Studio.picked_assets draws (Studio.AIImagesReq.project_id req)
         (Studio.AIImagesReq.fandom req)).
    intros st'. rewrite studio_ai_images_eq. by destruct (contains _ _).
  - exists (Studio.VoiceReq.project_id req),
      [Studio.voice_asset (Studio.VoiceReq.project_id req)].
    intros st'. rewrite studio_voice_eq. by destruct (contains _ _).
Qed.

Lemma backend_provide_exec body st :
  Backend.exec (Backend.ProvideScript body) st
  = if contains (Backend.ProvideScriptBody.project_id body) (Backend.PROJECTS st)
    then Backend.on_SCRIPTS
           <[Backend.ProvideScriptBody.project_id body :=
               Backend.Script.make (Backend.ProvideScriptBody.project_id body)
                 (Backend.ProvideScriptBody.text body)
                 (Backend.provided_segments (Backend.ProvideScriptBody.text body))]> st
    else st.
Proof.
  cbn [Backend.exec]. rewrite backend_provide_script_eq. by destruct (contains _ _).
Qed.

Lemma backend_images_exec body st :
  Backend.exec (Backend.GenerateAIImages body) st
  = if contains (Backend.GenerateAIImagesBody.project_id body) (Backend.PROJECTS st)
    then Backend.appended (Backend.GenerateAIImagesBody.project_id body)
           (Backend.image_assets body) st
    else st.
Proof.
  cbn [Backend.exec]. rewrite backend_generate_ai_images_eq.
  by destruct (contains _ _).
Qed.

End Order.

(** X19.  Scripts and assets live in separate tables: in [src/main.py] a
    script request (GenerateScript or ProvideScript) and an asset request
    (images or voice) give the same tables in either order, for any project
    ids.  In [src/backend/main.py] ProvideScript and GenerateImageAssets
    commute in the same way. *)
Theorem script_and_asset_requests_commute :
  (forall rs ra st,
     studio_script_request rs = true -> studio_asset_request ra = true ->
     Studio.exec rs (Studio.exec ra st) = Studio.exec ra (Studio.exec rs st)) /\
  (forall provide images st,
     Backend.exec (Backend.ProvideScript provide)
       (Backend.exec (Backend.GenerateAIImages images) st)
     = Backend.exec (Backend.GenerateAIImages images)
         (Backend.exec (Backend.ProvideScript provide) st)).
Proof.
  split.
  - intros rs ra st Hs Ha.
    destruct (studio_script_request_eq rs Hs) as (p & script & Es).
    destruct (studio_asset_request_eq ra Ha) as (q & more & Ea).
    rewrite (Es (Studio.exec ra st)), (Ea (Studio.exec rs st)), (Es st), (Ea st).
    destruct (contains p (Studio.PROJECTS st)) eqn:Kp;
      destruct (contains q (Studio.PROJECTS st)) eqn:Kq;
      cbn [Studio.appended Studio.on_SCRIPTS Studio.on_ASSETS Studio.PROJECTS];
      by rewrite ?Kp, ?Kq.
  - intros provide images st.
    rewrite (backend_provide_exec provide (Backend.exec _ st)),
      (backend_images_exec images (Backend.exec _ st)),
      (backend_provide_exec provide st), (backend_images_exec images st).
    destruct (contains (Backend.ProvideScriptBody.project_id provide)
                (Backend.PROJECTS st)) eqn:Kp;
      destruct (contains (Backend.GenerateAIImagesBody.project_id images)
                  (Backend.PROJECTS st)) eqn:Kq;
      cbn [Backend.appended Backend.on_SCRIPTS Backend.on_ASSETS Backend.PROJECTS];
      by rewrite ?Kp, ?Kq.
Qed.

Lemma script_and_asset_requests_commute_witness :
  let st := Studio.run
      [Studio.CreateProject "u1" (Studio.CreateProjectReq.parse "T" "Dragons" None None)]
      Studio.empty_tables in
  let rs := Studio.ProvideScript (Studio.ScriptProvideReq.make "u1" "one") in
  let ra := Studio.Voice (Studio.VoiceReq.make "u1") in
  Studio.exec rs (Studio.exec ra st) = Studio.exec ra (Studio.exec rs st).
Proof.
  intros st rs ra. by apply (proj1 script_and_asset_requests_commute).
Defined.

(** X20.  In [src/backend/main.py] the voice-over depends on the order: on a
    project without a script, GenerateScript followed by GenerateVoiceAsset
    appends the voice asset, while GenerateVoiceAsset followed by
    GenerateScript leaves the asset list as it was; both orders store the
    same script. *)
Theorem backend_voice_needs_script_first
    (st : Backend.Tables) (pid : string) (project : Backend.Project.t)
    (topic voice : option string) :
  Backend.PROJECTS st !! pid = Some project ->
  Backend.SCRIPTS st !! pid = None ->
  let generate := Backend.GenerateScript (Backend.GenerateScriptBody.make pid topic) in
  let speak := Backend.GenerateVoiceover (Backend.TTSBody.make pid voice) in
  let script_first := Backend.exec speak (Backend.exec generate st) in
  let voice_first := Backend.exec generate (Backend.exec speak st) in
  Backend.ASSETS script_first !! pid
    = Some (get_or pid [] (Backend.ASSETS st) ++ [Backend.voice_asset pid]) /\
  Backend.ASSETS voice_first = Backend.ASSETS st /\
  Backend.SCRIPTS script_first = Backend.SCRIPTS voice_first.
Proof.
  intros Hp Hs generate speak script_first voice_first.
  assert (Kp : contains pid (Backend.PROJECTS st) = true)
    by (apply contains_true; eauto).
  assert (Ks : contains pid (Backend.SCRIPTS st) = false) by by apply contains_false.
  unfold script_first, voice_first, generate, speak. cbn [Backend.exec].
  rewrite (backend_generate_voiceover_eq _ st). cbn [Backend.TTSBody.project_id].
  rewrite Kp, Ks. cbn [snd].
  rewrite (backend_generate_script_eq _ st).
  cbn [Backend.GenerateScriptBody.project_id Backend.GenerateScriptBody.topic].
  rewrite Hp. cbv zeta. cbn [snd].
  set (script := Backend.generated_script _ _).
  rewrite backend_generate_voiceover_eq. cbn [Backend.TTSBody.project_id].
  assert (Kp' : contains pid (Backend.PROJECTS (Backend.on_SCRIPTS <[pid := script]> st))
                = true) by exact Kp.
  assert (Ks' : contains pid (Backend.SCRIPTS (Backend.on_SCRIPTS <[pid := script]> st))
                = true) by (apply contains_true; exists script; apply lookup_insert_eq).
  rewrite Kp', Ks'. cbn [snd].
  rewrite backend_appended_lookup. done.
Qed.

Lemma backend_voice_needs_script_first_witness :
  let st := Backend.run
      [Backend.CreateProject (Backend.CreateProjectBody.make "T" "Dragons" "auto" None None)]
      Backend.empty_tables in
  let generate := Backend.GenerateScript (Backend.GenerateScriptBody.make "proj_1" None) in
  let speak := Backend.GenerateVoiceover (Backend.TTSBody.parse "proj_1" None) in
  Backend.ASSETS (Backend.exec generate (Backend.exec speak st)) = Backend.ASSETS st.
Proof.
  intros st generate speak.
  refine (proj1 (proj2 (backend_voice_needs_script_first st "proj_1"
            (backend_project "T" "Dragons" "auto" None) None _ _ _))); reflexivity.
Defined.
